(** * VAYMN library manager: lending, fines, accounts and catalogue forms

    A shallow embedding of the TypeScript sources (types.ts, services/db.ts,
    services/geminiService.ts, App.tsx and the two dashboard components) and
    the properties of the lending life cycle, the fine arithmetic, the search
    filter, the account logic and the book form that follow from them.

    Conventions of the embedding.
    - A JavaScript string is a [string]: a sequence of 8-bit characters, the
      Latin-1 range of code units.
    - A time value (what [Date.getTime] returns, milliseconds since the epoch)
      is a [Z].  An ISO-8601 string produced by [toISOString] is represented
      by the time value it encodes, since parsing it with [new Date] gives
      that value back.  The arithmetic of the script on time values stays on
      integers below 2^53 and is exact there; [Math.ceil] of a quotient by
      the milliseconds of a day is the integer ceiling for spans below 2^27
      days, which covers every pair of dates a clock can give.
    - [Date.setDate(getDate() + n)] is calendar arithmetic in local time:
      the time value is read in local time, moved by n days of 86400000 ms
      there (same local time of day, n calendar days away) and read back as
      a time value.  The offsets of local time are those of the host's time
      zone, a [Zone]; like the clock, the zone is an argument of what reads
      it.
    - [undefined] or an absent property is [None]; [null] is [None] for the
      two nullable lending fields of a book.
    - React state is passed explicitly: a component handler maps the world
      (local storage plus the state variables of the components) to the world
      after the handler's state updates were committed.  Values read from the
      clock or returned by an awaited call are arguments of the handler. *)

From Stdlib Require Import ZArith List String Ascii Bool Lia DecimalString.
From Stdlib Require DecimalZ DecimalPos.
From Stdlib Require Import Relations.Relation_Operators.
Import ListNotations.

Local Open Scope Z_scope.
Local Open Scope string_scope.
Local Open Scope list_scope.

(** ** JavaScript primitives used by the sources *)

Module JS.

(** [!!s]: a string is truthy unless it is empty. *)
Definition truthyStr (s : string) : bool := negb (s =? "")%string.

(** [!!v] for a value that is a string or [undefined]. *)
Definition truthy (v : option string) : bool :=
  match v with
  | Some s => truthyStr s
  | None => false
  end.

(** [a || b] on strings. *)
Definition orStr (a : option string) (b : string) : string :=
  match a with
  | Some s => if truthyStr s then s else b
  | None => b
  end.

(** [a || b] where both sides may be [undefined]. *)
Definition orElse (a b : option string) : option string :=
  if truthy a then a else b.

(** White space and line terminators in the 8-bit range. *)
Definition isWhiteSpace (c : ascii) : bool :=
  let n := nat_of_ascii c in
  ((9 <=? n) && (n <=? 13) || (n =? 32) || (n =? 160))%nat.

Fixpoint trimStart (s : string) : string :=
  match s with
  | EmptyString => EmptyString
  | String c s' => if isWhiteSpace c then trimStart s' else s
  end.

Fixpoint trimEnd (s : string) : string :=
  match s with
  | EmptyString => EmptyString
  | String c s' =>
      let r := trimEnd s' in
      if isWhiteSpace c && (r =? "")%string then EmptyString else String c r
  end.

(** [String.prototype.trim] *)
Definition trim (s : string) : string := trimEnd (trimStart s).

Definition lowerChar (c : ascii) : ascii :=
  let n := nat_of_ascii c in
  if ((65 <=? n) && (n <=? 90)
      || (192 <=? n) && (n <=? 222) && negb (n =? 215))%nat
  then ascii_of_nat (n + 32) else c.

(** [String.prototype.toLowerCase] on the 8-bit range, where the method maps
    each code unit on its own.  Beyond that range the method also looks at
    the neighbours of a character (a capital sigma at the end of a word), so
    the theorems on the search filter use no property of the mapping except
    that the empty string is mapped to itself. *)
Fixpoint toLowerCase (s : string) : string :=
  match s with
  | EmptyString => EmptyString
  | String c s' => String (lowerChar c) (toLowerCase s')
  end.

(** [s.startsWith(q)] *)
Fixpoint startsWith (s q : string) {struct q} : bool :=
  match q, s with
  | EmptyString, _ => true
  | String _ _, EmptyString => false
  | String a q', String b s' => (a =? b)%char && startsWith s' q'
  end.

(** [s.includes(q)]: [q] occurs in [s] at some position. *)
Fixpoint includes (s q : string) : bool :=
  startsWith s q ||
  match s with
  | EmptyString => false
  | String _ s' => includes s' q
  end.

(** [s === v] for a string [s] and a value that is a string or
    [undefined]. *)
Definition strictEq (s : string) (v : option string) : bool :=
  match v with
  | Some x => (s =? x)%string
  | None => false
  end.

(** [Array.prototype.find] *)
Fixpoint find {A : Type} (p : A -> bool) (l : list A) : option A :=
  match l with
  | [] => None
  | x :: l' => if p x then Some x else find p l'
  end.

(** [Array.prototype.some] *)
Definition some {A : Type} (p : A -> bool) (l : list A) : bool := existsb p l.

(** The decimal numeral a template literal prints for an integer. *)
Definition numeral (n : Z) : string := NilZero.string_of_int (Z.to_int n).

(** [Math.ceil(a / b)] for integers [a] and [b > 0]. *)
Definition ceilDiv (a b : Z) : Z := - ((- a) / b).

End JS.

(** ** The host's time zone *)

(** Local time is UTC plus an offset that depends on the instant.
    [offsetAt t] is the offset, in ms, in force at the time value [t]
    (LocalTZA(t, true) of ECMAScript); [offsetOfLocal tl] is the offset with
    which the local time value [tl] is read back (LocalTZA(tl, false)). *)
Record Zone := mkZone {
  offsetAt : Z -> Z;
  offsetOfLocal : Z -> Z
}.

(** LocalTime(t) *)
Definition localTime (zone : Zone) (t : Z) : Z := t + offsetAt zone t.

(** UTC(tl) *)
Definition utcTime (zone : Zone) (tl : Z) : Z := tl - offsetOfLocal zone tl.

(** A zone whose clocks never change: [c] ms ahead of UTC. *)
Definition fixedZone (c : Z) : Zone := mkZone (fun _ => c) (fun _ => c).

Definition utc : Zone := fixedZone 0.

(** Eastern time with the two clock changes of 2024: five hours behind UTC
    until 2024-03-10T07:00Z, four hours behind until 2024-11-03T06:00Z, five
    hours behind after.  A local time that the clocks skip or show twice is
    read with the offset in force before the change. *)
Definition newYork2024 : Zone :=
  let hour := 3600000 in
  let spring := 1710054000000 in
  let autumn := 1730613600000 in
  mkZone
    (fun t => if (t <? spring)%Z then -5 * hour
              else if (t <? autumn)%Z then -4 * hour else -5 * hour)
    (fun tl => if (tl <? spring - 4 * hour)%Z then -5 * hour
               else if (tl <? autumn - 4 * hour)%Z then -4 * hour
               else -5 * hour).

(** ** types.ts *)

Inductive UserRole := ADMIN | USER.

Definition UserRole_eqb (a b : UserRole) : bool :=
  match a, b with
  | ADMIN, ADMIN | USER, USER => true
  | _, _ => false
  end.

Module User.
Record t := mk {
  id : string;
  libraryId : string;
  password : option string;
  name : string;
  role : UserRole
}.
End User.

Module Book.
Record t := mk {
  id : string;
  title : string;
  author : string;
  genre : string;
  coverUrl : option string;
  standNumber : string;
  isIssued : bool;
  issuedToUserId : option string;
  issuedDate : option Z;
  description : option string
}.
End Book.

Inductive View := HOME | LOGIN_USER | LOGIN_ADMIN | SIGNUP | SIGNUP_ADMIN | DASHBOARD.

(** ** services/db.ts *)

Module Db.

(** The three local-storage entries; [None] is a key that was never set. *)
Record Store := mkStore {
  USERS : option (list User.t);
  BOOKS : option (list Book.t);
  SESSION : option User.t
}.

Definition empty : Store := mkStore None None None.

Definition msPerDay : Z := 1000 * 60 * 60 * 24.

(** [d.setDate(d.getDate() + n)] on the time value [t]: the day number of
    the local time moves by [n], the time within the day stays. *)
Definition addDays (zone : Zone) (t n : Z) : Z :=
  utcTime zone (localTime zone t + n * msPerDay).

Definition getPastDate (zone : Zone) (now days : Z) : Z :=
  addDays zone now (- days).

Definition initialUsers : list User.t :=
  [ User.mk "admin1" "admin" (Some "123") "Head Librarian" ADMIN;
    User.mk "user1" "user" (Some "123") "John Doe" USER ].

Definition initialBooks (zone : Zone) (now : Z) : list Book.t :=
  [ Book.mk "b1" "The Great Gatsby" "F. Scott Fitzgerald" "Classic"
      (Some "https://picsum.photos/300/450?random=1") "A1"
      false None None (Some "A novel set in the Jazz Age.");
    Book.mk "b2" "1984" "George Orwell" "Dystopian"
      (Some "https://picsum.photos/300/450?random=2") "B3"
      false None None (Some "A story about totalitarianism.");
    Book.mk "b3" "Clean Code" "Robert C. Martin" "Technology"
      (Some "https://picsum.photos/300/450?random=3") "T5"
      true (Some "user1") (Some (getPastDate zone now 14))
      (Some "A handbook of agile software craftsmanship.") ].

Definition seedData (zone : Zone) (now : Z) (s : Store) : Store :=
  let s1 :=
    match USERS s with
    | None => mkStore (Some initialUsers) (BOOKS s) (SESSION s)
    | Some _ => s
    end in
  match BOOKS s1 with
  | None => mkStore (USERS s1) (Some (initialBooks zone now)) (SESSION s1)
  | Some _ => s1
  end.

Definition init := seedData.

Definition getUsers (s : Store) : list User.t :=
  match USERS s with Some l => l | None => [] end.

Definition saveUsers (users : list User.t) (s : Store) : Store :=
  mkStore (Some users) (BOOKS s) (SESSION s).

Definition getBooks (s : Store) : list Book.t :=
  match BOOKS s with Some l => l | None => [] end.

Definition saveBooks (books : list Book.t) (s : Store) : Store :=
  mkStore (USERS s) (Some books) (SESSION s).

Definition getSession (s : Store) : option User.t := SESSION s.

Definition setSession (user : User.t) (s : Store) : Store :=
  mkStore (USERS s) (BOOKS s) (Some user).

Definition clearSession (s : Store) : Store :=
  mkStore (USERS s) (BOOKS s) None.

Definition findUser (libraryId : string) (s : Store) : option User.t :=
  let users := getUsers s in
  JS.find (fun u => (User.libraryId u =? libraryId)%string) users.

End Db.

Arguments Db.addDays : simpl never.

(** ** services/geminiService.ts *)

Module Gemini.

(** The object the response schema describes: three required strings and
    an optional cover. *)
Record Details := mkDetails {
  author : string;
  genre : string;
  description : string;
  coverUrl : option string
}.

(** What awaiting [generateBookDetails] can give the caller: the parsed
    object, [null], or a rejection. *)
Inductive Outcome :=
| Resolved (data : option Details)
| Rejected.

End Gemini.

(** ** Component state *)

(** [Partial<Book>], the state of the book modal.  A property of the form is
    [None] when the object has no such property.  [coverUrl] is the one
    property the handlers can set to [undefined] ([Some None]). *)
Module BookForm.

Record t := mk {
  id : option string;
  title : option string;
  author : option string;
  genre : option string;
  coverUrl : option (option string);
  standNumber : option string;
  isIssued : option bool;
  issuedToUserId : option (option string);
  issuedDate : option (option Z);
  description : option string
}.

(** [{ title: '', author: '', genre: '', standNumber: '', coverUrl: '',
    description: '' }] *)
Definition blank : t :=
  mk None (Some "") (Some "") (Some "") (Some (Some "")) (Some "")
     None None None (Some "").

(** [setBookForm(book)]: the form holds the properties of the book. *)
Definition ofBook (b : Book.t) : t :=
  mk (Some (Book.id b)) (Some (Book.title b)) (Some (Book.author b))
     (Some (Book.genre b))
     (match Book.coverUrl b with Some s => Some (Some s) | None => None end)
     (Some (Book.standNumber b))
     (Some (Book.isIssued b)) (Some (Book.issuedToUserId b))
     (Some (Book.issuedDate b)) (Book.description b).

(** Reading [form.coverUrl]. *)
Definition cover (f : t) : option string :=
  match coverUrl f with Some v => v | None => None end.

Definition setTitle (v : string) (f : t) : t :=
  mk (id f) (Some v) (author f) (genre f) (coverUrl f) (standNumber f)
     (isIssued f) (issuedToUserId f) (issuedDate f) (description f).
Definition setAuthor (v : string) (f : t) : t :=
  mk (id f) (title f) (Some v) (genre f) (coverUrl f) (standNumber f)
     (isIssued f) (issuedToUserId f) (issuedDate f) (description f).
Definition setGenre (v : string) (f : t) : t :=
  mk (id f) (title f) (author f) (Some v) (coverUrl f) (standNumber f)
     (isIssued f) (issuedToUserId f) (issuedDate f) (description f).
Definition setCoverUrl (v : option string) (f : t) : t :=
  mk (id f) (title f) (author f) (genre f) (Some v) (standNumber f)
     (isIssued f) (issuedToUserId f) (issuedDate f) (description f).
Definition setStandNumber (v : string) (f : t) : t :=
  mk (id f) (title f) (author f) (genre f) (coverUrl f) (Some v)
     (isIssued f) (issuedToUserId f) (issuedDate f) (description f).
Definition setDescription (v : string) (f : t) : t :=
  mk (id f) (title f) (author f) (genre f) (coverUrl f) (standNumber f)
     (isIssued f) (issuedToUserId f) (issuedDate f) (Some v).

Definition orOf {A : Type} (v : option A) (d : A) : A :=
  match v with Some x => x | None => d end.

(** [{ ...b, ...form } as Book]: every property the form has replaces the
    book's. *)
Definition spreadOver (b : Book.t) (f : t) : Book.t :=
  Book.mk (orOf (id f) (Book.id b))
          (orOf (title f) (Book.title b))
          (orOf (author f) (Book.author b))
          (orOf (genre f) (Book.genre b))
          (orOf (coverUrl f) (Book.coverUrl b))
          (orOf (standNumber f) (Book.standNumber b))
          (orOf (isIssued f) (Book.isIssued b))
          (orOf (issuedToUserId f) (Book.issuedToUserId b))
          (orOf (issuedDate f) (Book.issuedDate b))
          (match description f with
           | Some s => Some s
           | None => Book.description b
           end).

End BookForm.

(** [Partial<User>], the state of the account modal. *)
Module UserForm.

Record t := mk {
  id : option string;
  libraryId : option string;
  password : option string;
  name : option string;
  role : option UserRole
}.

(** [{ name: '', libraryId: '', password: '', role: role }] *)
Definition blank (r : UserRole) : t :=
  mk None (Some "") (Some "") (Some "") (Some r).

Definition ofUser (u : User.t) : t :=
  mk (Some (User.id u)) (Some (User.libraryId u)) (User.password u)
     (Some (User.name u)) (Some (User.role u)).

Definition setName (v : string) (f : t) : t :=
  mk (id f) (libraryId f) (password f) (Some v) (role f).
Definition setLibraryId (v : string) (f : t) : t :=
  mk (id f) (Some v) (password f) (name f) (role f).
Definition setPassword (v : string) (f : t) : t :=
  mk (id f) (libraryId f) (Some v) (name f) (role f).

(** [{ ...u, ...form } as User] *)
Definition spreadOver (u : User.t) (f : t) : User.t :=
  User.mk (BookForm.orOf (id f) (User.id u))
          (BookForm.orOf (libraryId f) (User.libraryId u))
          (match password f with
           | Some s => Some s
           | None => User.password u
           end)
          (BookForm.orOf (name f) (User.name u))
          (BookForm.orOf (role f) (User.role u)).

End UserForm.

Inductive NoteType := success | error | info.

Record Notification := mkNote { msg : string; type : NoteType }.

(** State variables of [App]. *)
Module App.
Record State := mk {
  view : View;
  currentUser : option User.t;
  libId : string;
  password : string;
  name : string;
  notification : option Notification
}.

Definition initial : State := mk HOME None "" "" "" None.
End App.

(** State variables of [UserDashboard]. *)
Module UserDashboard.
Record State := mk {
  books : list Book.t;
  searchQuery : string;
  selectedBook : option Book.t
}.

Definition initial : State := mk [] "" None.
End UserDashboard.

Inductive Tab := TabBooks | TabUsers | TabAdmins.

(** State variables of [AdminDashboard]. *)
Module AdminDashboard.
Record State := mk {
  books : list Book.t;
  users : list User.t;
  activeTab : Tab;
  isLoading : bool;
  isBookModalOpen : bool;
  bookForm : BookForm.t;
  isEditMode : bool;
  isUserModalOpen : bool;
  userForm : UserForm.t;
  isUserEditMode : bool
}.

Definition initial : State :=
  mk [] [] TabBooks false false BookForm.blank false
     false (UserForm.blank USER) false.

Definition setBooks v (s : State) : State :=
  mk v (users s) (activeTab s) (isLoading s) (isBookModalOpen s)
     (bookForm s) (isEditMode s) (isUserModalOpen s) (userForm s)
     (isUserEditMode s).
Definition setUsers v (s : State) : State :=
  mk (books s) v (activeTab s) (isLoading s) (isBookModalOpen s)
     (bookForm s) (isEditMode s) (isUserModalOpen s) (userForm s)
     (isUserEditMode s).
Definition setActiveTab v (s : State) : State :=
  mk (books s) (users s) v (isLoading s) (isBookModalOpen s)
     (bookForm s) (isEditMode s) (isUserModalOpen s) (userForm s)
     (isUserEditMode s).
Definition setIsLoading v (s : State) : State :=
  mk (books s) (users s) (activeTab s) v (isBookModalOpen s)
     (bookForm s) (isEditMode s) (isUserModalOpen s) (userForm s)
     (isUserEditMode s).
Definition setIsBookModalOpen v (s : State) : State :=
  mk (books s) (users s) (activeTab s) (isLoading s) v
     (bookForm s) (isEditMode s) (isUserModalOpen s) (userForm s)
     (isUserEditMode s).
Definition setBookForm v (s : State) : State :=
  mk (books s) (users s) (activeTab s) (isLoading s) (isBookModalOpen s)
     v (isEditMode s) (isUserModalOpen s) (userForm s)
     (isUserEditMode s).
Definition setIsEditMode v (s : State) : State :=
  mk (books s) (users s) (activeTab s) (isLoading s) (isBookModalOpen s)
     (bookForm s) v (isUserModalOpen s) (userForm s)
     (isUserEditMode s).
Definition setIsUserModalOpen v (s : State) : State :=
  mk (books s) (users s) (activeTab s) (isLoading s) (isBookModalOpen s)
     (bookForm s) (isEditMode s) v (userForm s)
     (isUserEditMode s).
Definition setUserForm v (s : State) : State :=
  mk (books s) (users s) (activeTab s) (isLoading s) (isBookModalOpen s)
     (bookForm s) (isEditMode s) (isUserModalOpen s) v
     (isUserEditMode s).
Definition setIsUserEditMode v (s : State) : State :=
  mk (books s) (users s) (activeTab s) (isLoading s) (isBookModalOpen s)
     (bookForm s) (isEditMode s) (isUserModalOpen s) (userForm s) v.
End AdminDashboard.

(** Local storage together with the state of the three components. *)
Record World := mkWorld {
  storage : Db.Store;
  app : App.State;
  userDash : UserDashboard.State;
  adminDash : AdminDashboard.State
}.

Definition onStorage (f : Db.Store -> Db.Store) (w : World) : World :=
  mkWorld (f (storage w)) (app w) (userDash w) (adminDash w).
Definition onApp (f : App.State -> App.State) (w : World) : World :=
  mkWorld (storage w) (f (app w)) (userDash w) (adminDash w).
Definition onUserDash (f : UserDashboard.State -> UserDashboard.State)
  (w : World) : World :=
  mkWorld (storage w) (app w) (f (userDash w)) (adminDash w).
Definition onAdminDash (f : AdminDashboard.State -> AdminDashboard.State)
  (w : World) : World :=
  mkWorld (storage w) (app w) (userDash w) (f (adminDash w)).

(** A fresh browser: nothing in local storage, every state variable at the
    argument of its [useState]. *)
Definition freshWorld : World :=
  mkWorld Db.empty App.initial UserDashboard.initial AdminDashboard.initial.

(** ** App.tsx *)

Definition View_eqb (a b : View) : bool :=
  match a, b with
  | HOME, HOME | LOGIN_USER, LOGIN_USER | LOGIN_ADMIN, LOGIN_ADMIN
  | SIGNUP, SIGNUP | SIGNUP_ADMIN, SIGNUP_ADMIN | DASHBOARD, DASHBOARD => true
  | _, _ => false
  end.

(** [notify(msg, type)]: the notification replaces the displayed one.  (The
    timer that hides it again four seconds later only clears this state
    variable and is left out.) *)
Definition notify (m : string) (t : NoteType) : World -> World :=
  onApp (fun a =>
    App.mk (App.view a) (App.currentUser a) (App.libId a) (App.password a)
           (App.name a) (Some (mkNote m t))).

(** [setState({ view, currentUser })] *)
Definition setState (v : View) (u : option User.t) : World -> World :=
  onApp (fun a =>
    App.mk v u (App.libId a) (App.password a) (App.name a)
           (App.notification a)).

Definition resetForm : World -> World :=
  onApp (fun a =>
    App.mk (App.view a) (App.currentUser a) "" "" "" (App.notification a)).

Definition setLibId (v : string) : World -> World :=
  onApp (fun a =>
    App.mk (App.view a) (App.currentUser a) v (App.password a) (App.name a)
           (App.notification a)).
Definition setPassword (v : string) : World -> World :=
  onApp (fun a =>
    App.mk (App.view a) (App.currentUser a) (App.libId a) v (App.name a)
           (App.notification a)).
Definition setName (v : string) : World -> World :=
  onApp (fun a =>
    App.mk (App.view a) (App.currentUser a) (App.libId a) (App.password a) v
           (App.notification a)).

(** The effect run when [App] mounts, at clock value [now] in the zone
    [zone]. *)
Definition appMount (zone : Zone) (now : Z) (w : World) : World :=
  let w1 := onStorage (Db.init zone now) w in
  match Db.getSession (storage w1) with
  | Some session => setState DASHBOARD (Some session) w1
  | None => w1
  end.

(** [user.password === password] *)
Definition passwordIs (u : User.t) (p : string) : bool :=
  match User.password u with
  | Some q => (q =? p)%string
  | None => false
  end.

Definition invalidCredentials : string := "Invalid Library ID or Password.".

Definition notAuthorized (role : UserRole) : string :=
  "This account is not authorized for "
  ++ (match role with ADMIN => "Admin" | USER => "Student" end)
  ++ " access.".

Definition handleLogin (role : UserRole) (w : World) : World :=
  let user := Db.findUser (App.libId (app w)) (storage w) in
  match user with
  | Some user =>
      if passwordIs user (App.password (app w)) then
        if UserRole_eqb (User.role user) role then
          let w1 := onStorage (Db.setSession user) w in
          let w2 := setState DASHBOARD (Some user) w1 in
          let w3 := resetForm w2 in
          notify ("Welcome back, " ++ User.name user) success w3
        else
          notify (notAuthorized role) error w
      else notify invalidCredentials error w
  | None => notify invalidCredentials error w
  end.

Definition fillInAllFields : string := "Please fill in all fields.".

Definition libraryIdExists : string :=
  "Library ID already exists. Please choose another.".

Definition signupFailed : string := "An error occurred during account creation.".

(** What the two writes of [handleSignup] to local storage do: both succeed,
    [db.saveUsers] throws (the quota is exceeded, say), or [db.saveUsers]
    succeeds and [db.setSession] throws. *)
Inductive SignupFault := NoFault | SaveUsersThrows | SetSessionThrows.

(** [handleSignup], submitted at clock value [now].  The [try] block stops
    at the first write that throws and the [catch] reports it. *)
Definition handleSignup (fault : SignupFault) (now : Z) (w : World) : World :=
  let a := app w in
  let role := if View_eqb (App.view a) SIGNUP_ADMIN then ADMIN else USER in
  let roleName := match role with ADMIN => "Librarian" | USER => "Student" end in
  if negb (JS.truthyStr (JS.trim (App.name a)))
     || negb (JS.truthyStr (JS.trim (App.libId a)))
     || negb (JS.truthyStr (JS.trim (App.password a)))
  then notify fillInAllFields error w
  else
    let users := Db.getUsers (storage w) in
    match JS.find (fun u => (User.libraryId u =? App.libId a)%string) users with
    | Some _ => notify libraryIdExists error w
    | None =>
        let newUser :=
          User.mk ("u" ++ JS.numeral now) (App.libId a) (Some (App.password a))
                  (App.name a) role in
        match fault with
        | SaveUsersThrows => notify signupFailed error w
        | SetSessionThrows =>
            let w1 := onStorage (Db.saveUsers (users ++ [newUser])) w in
            notify signupFailed error w1
        | NoFault =>
            let w1 := onStorage (Db.saveUsers (users ++ [newUser])) w in
            let w2 := onStorage (Db.setSession newUser) w1 in
            let w3 := setState DASHBOARD (Some newUser) w2 in
            let w4 := resetForm w3 in
            notify ("Welcome, " ++ App.name a ++ "! Your " ++ roleName
                    ++ " account is ready.") success w4
        end
    end.

Definition handleLogout (w : World) : World :=
  let w1 := onStorage Db.clearSession w in
  let w2 := setState HOME None w1 in
  notify "Logged out successfully." info w2.

(** The navigation buttons: [setState({ ...state, view })], after
    [resetForm()] for every button but the two on the home view. *)
Definition navigate (reset : bool) (v : View) (w : World) : World :=
  let w1 := if reset then resetForm w else w in
  setState v (App.currentUser (app w1)) w1.

(** ** components/UserDashboard.tsx *)

Definition loadBooks (w : World) : World :=
  onUserDash (fun s =>
    UserDashboard.mk (Db.getBooks (storage w)) (UserDashboard.searchQuery s)
                     (UserDashboard.selectedBook s)) w.

(** The dashboard mounts with fresh state variables and loads the books. *)
Definition userDashboardMount (w : World) : World :=
  loadBooks (onUserDash (fun _ => UserDashboard.initial) w).

Definition setSearchQuery (q : string) : World -> World :=
  onUserDash (fun s =>
    UserDashboard.mk (UserDashboard.books s) q (UserDashboard.selectedBook s)).

Definition setSelectedBook (b : option Book.t) : World -> World :=
  onUserDash (fun s =>
    UserDashboard.mk (UserDashboard.books s) (UserDashboard.searchQuery s) b).

(** [{ ...b, isIssued: true, issuedToUserId, issuedDate }] *)
Definition markIssued (userId : string) (date : Z) (b : Book.t) : Book.t :=
  Book.mk (Book.id b) (Book.title b) (Book.author b) (Book.genre b)
          (Book.coverUrl b) (Book.standNumber b)
          true (Some userId) (Some date) (Book.description b).

Definition handleIssueBook (currentUser : User.t) (now : Z) (book : Book.t)
  (w : World) : World :=
  if negb (Book.isIssued book) then
    let updatedBooks :=
      map (fun b =>
             if (Book.id b =? Book.id book)%string
             then markIssued (User.id currentUser) now b
             else b)
          (UserDashboard.books (userDash w)) in
    let w1 := onStorage (Db.saveBooks updatedBooks) w in
    let w2 := onUserDash (fun s =>
                UserDashboard.mk updatedBooks (UserDashboard.searchQuery s)
                                 (UserDashboard.selectedBook s)) w1 in
    let w3 := setSelectedBook None w2 in
    notify "Book issued successfully! Please collect it." success w3
  else w.

Definition handleReturnClick : World -> World :=
  notify "Please submit the book physically to the librarian at the counter."
         info.

Definition matchesQuery (searchQuery : string) (b : Book.t) : bool :=
  JS.includes (JS.toLowerCase (Book.title b)) (JS.toLowerCase searchQuery)
  || JS.includes (JS.toLowerCase (Book.author b)) (JS.toLowerCase searchQuery)
  || JS.includes (JS.toLowerCase (Book.genre b)) (JS.toLowerCase searchQuery).

Definition filteredBooks (books : list Book.t) (searchQuery : string)
  : list Book.t :=
  filter (matchesQuery searchQuery) books.

(** [b.issuedToUserId === userId] *)
Definition issuedToIs (userId : string) (b : Book.t) : bool :=
  match Book.issuedToUserId b with
  | Some i => (i =? userId)%string
  | None => false
  end.

Definition myBooks (currentUser : User.t) (books : list Book.t) : list Book.t :=
  filter (issuedToIs (User.id currentUser)) books.

(** [new Date(v)] for a stored date; [new Date(null)] is the epoch. *)
Definition dateOf (v : option Z) : Z :=
  match v with Some t => t | None => 0 end.

(** What the card of a book in "Currently Issued" computes when it is
    rendered at clock value [today] in the zone [zone]. *)
Record LoanCard := mkLoanCard {
  dueDate : Z;
  isOverdue : bool;
  diffDays : Z;
  fine : Z
}.

Definition loanCard (zone : Zone) (today : Z) (book : Book.t) : LoanCard :=
  let issueDate := dateOf (Book.issuedDate book) in
  let dueDate := Db.addDays zone issueDate 7 in
  let isOverdue := (dueDate <? today)%Z in
  let diffTime := Z.abs (today - dueDate) in
  let diffDays := JS.ceilDiv diffTime (1000 * 60 * 60 * 24) in
  let fine := if isOverdue then diffDays * 5 else 0 in
  mkLoanCard dueDate isOverdue diffDays fine.

(** The cards of the "Currently Issued" section. *)
Definition myLoanCards (zone : Zone) (currentUser : User.t) (today : Z)
  (books : list Book.t) : list (Book.t * LoanCard) :=
  map (fun book => (book, loanCard zone today book)) (myBooks currentUser books).

(** ** components/AdminDashboard.tsx *)

Definition loadData (w : World) : World :=
  onAdminDash (fun s =>
    AdminDashboard.setUsers (Db.getUsers (storage w))
      (AdminDashboard.setBooks (Db.getBooks (storage w)) s)) w.

Definition adminDashboardMount (w : World) : World :=
  loadData (onAdminDash (fun _ => AdminDashboard.initial) w).

(** How choosing a file ends: no file chosen, the resized image as a data
    URL, or a failure while processing it. *)
Inductive Upload :=
| NoFile
| Resized (base64 : string)
| Failed.

Definition handleImageUpload (u : Upload) (w : World) : World :=
  match u with
  | NoFile => w
  | Resized base64 =>
      let w1 := onAdminDash (fun s =>
                  AdminDashboard.setBookForm
                    (BookForm.setCoverUrl (Some base64) (AdminDashboard.bookForm s))
                    s) w in
      notify "Image uploaded successfully!" success w1
  | Failed => notify "Failed to process image. Please try another." error w
  end.

Definition handleDeleteBook (id : string) (w : World) : World :=
  let updatedBooks :=
    filter (fun b => negb (Book.id b =? id)%string)
           (AdminDashboard.books (adminDash w)) in
  let w1 := onStorage (Db.saveBooks updatedBooks) w in
  let w2 := loadData w1 in
  notify "Book deleted successfully." info w2.

Definition handleEditBook (book : Book.t) (w : World) : World :=
  onAdminDash (fun s =>
    AdminDashboard.setIsBookModalOpen true
      (AdminDashboard.setIsEditMode true
         (AdminDashboard.setBookForm (BookForm.ofBook book) s))) w.

(** [{ ...b, isIssued: false, issuedToUserId: null, issuedDate: null }] *)
Definition markReturned (b : Book.t) : Book.t :=
  Book.mk (Book.id b) (Book.title b) (Book.author b) (Book.genre b)
          (Book.coverUrl b) (Book.standNumber b)
          false None None (Book.description b).

Definition handleReturnBook (bookId : string) (w : World) : World :=
  let updatedBooks :=
    map (fun b => if (Book.id b =? bookId)%string then markReturned b else b)
        (AdminDashboard.books (adminDash w)) in
  let w1 := onStorage (Db.saveBooks updatedBooks) w in
  let w2 := loadData w1 in
  notify "Book marked as returned." success w2.

Definition openAddBookModal (w : World) : World :=
  onAdminDash (fun s =>
    AdminDashboard.setIsBookModalOpen true
      (AdminDashboard.setIsEditMode false
         (AdminDashboard.setBookForm BookForm.blank s))) w.

(** The update [handleSmartFill] applies to the form when data arrived:
    [{ ...prev, author, genre, description,
       coverUrl: prev.coverUrl || data.coverUrl }]. *)
Definition smartFillMerge (data : Gemini.Details) (prev : BookForm.t)
  : BookForm.t :=
  BookForm.mk (BookForm.id prev) (BookForm.title prev)
    (Some (Gemini.author data))
    (Some (Gemini.genre data))
    (Some (JS.orElse (BookForm.cover prev) (Gemini.coverUrl data)))
    (BookForm.standNumber prev)
    (BookForm.isIssued prev) (BookForm.issuedToUserId prev)
    (BookForm.issuedDate prev)
    (Some (Gemini.description data)).

(** [handleSmartFill] up to its [await]. *)
Definition handleSmartFillStart (w : World) : World :=
  if negb (JS.truthy (BookForm.title (AdminDashboard.bookForm (adminDash w))))
  then notify "Please enter a book title first." error w
  else onAdminDash (AdminDashboard.setIsLoading true) w.

(** [handleSmartFill] from the point where the awaited call settled. *)
Definition handleSmartFillSettle (o : Gemini.Outcome) (w : World) : World :=
  let w1 :=
    match o with
    | Gemini.Resolved (Some data) =>
        let w' := onAdminDash (fun s =>
                    AdminDashboard.setBookForm
                      (smartFillMerge data (AdminDashboard.bookForm s)) s) w in
        notify "Book details auto-filled!" success w'
    | Gemini.Resolved None =>
        notify "Could not fetch details. Please fill manually." info w
    | Gemini.Rejected =>
        notify "AI Service unavailable. Please check configuration." error w
    end in
  onAdminDash (AdminDashboard.setIsLoading false) w1.

(** A run of [handleSmartFill] with no other event while the call is
    pending. *)
Definition handleSmartFill (o : Gemini.Outcome) (w : World) : World :=
  if negb (JS.truthy (BookForm.title (AdminDashboard.bookForm (adminDash w))))
  then handleSmartFillStart w
  else handleSmartFillSettle o (handleSmartFillStart w).

Definition noCover : string :=
  "https://via.placeholder.com/300x450?text=No+Cover".

Definition handleBookSubmit (now : Z) (w : World) : World :=
  let s := adminDash w in
  let bookForm := AdminDashboard.bookForm s in
  let isEditMode := AdminDashboard.isEditMode s in
  if negb (JS.truthy (BookForm.title bookForm))
     || negb (JS.truthy (BookForm.standNumber bookForm))
  then notify "Title and Stand Number are required." error w
  else
    let newBooks := AdminDashboard.books s in
    let newBooks :=
      if isEditMode && JS.truthy (BookForm.id bookForm) then
        map (fun b =>
               if JS.strictEq (Book.id b) (BookForm.id bookForm)
               then BookForm.spreadOver b bookForm
               else b)
            newBooks
      else
        let newBook :=
          Book.mk ("b" ++ JS.numeral now)
                  (BookForm.orOf (BookForm.title bookForm) "")
                  (JS.orStr (BookForm.author bookForm) "Unknown")
                  (JS.orStr (BookForm.genre bookForm) "General")
                  (Some (JS.orStr (BookForm.cover bookForm) noCover))
                  (BookForm.orOf (BookForm.standNumber bookForm) "")
                  false None None
                  (Some (JS.orStr (BookForm.description bookForm) "")) in
        newBooks ++ [newBook] in
    let w1 := onStorage (Db.saveBooks newBooks) w in
    let w2 := loadData w1 in
    let w3 := onAdminDash (AdminDashboard.setIsBookModalOpen false) w2 in
    notify (if isEditMode then "Book updated successfully!"
            else "Book added to catalog!") success w3.

Definition closeBookModal : World -> World :=
  onAdminDash (AdminDashboard.setIsBookModalOpen false).

Definition closeUserModal : World -> World :=
  onAdminDash (AdminDashboard.setIsUserModalOpen false).

(** The [onChange] handlers of the book modal:
    [setBookForm({ ...bookForm, field: value })]. *)
Inductive BookField := FTitle | FAuthor | FGenre | FStandNumber | FDescription.

Definition changeBookField (fld : BookField) (v : string) : World -> World :=
  onAdminDash (fun s =>
    let f := AdminDashboard.bookForm s in
    AdminDashboard.setBookForm
      (match fld with
       | FTitle => BookForm.setTitle v f
       | FAuthor => BookForm.setAuthor v f
       | FGenre => BookForm.setGenre v f
       | FStandNumber => BookForm.setStandNumber v f
       | FDescription => BookForm.setDescription v f
       end) s).

Inductive UserField := FName | FLibraryId | FPassword.

Definition changeUserField (fld : UserField) (v : string) : World -> World :=
  onAdminDash (fun s =>
    let f := AdminDashboard.userForm s in
    AdminDashboard.setUserForm
      (match fld with
       | FName => UserForm.setName v f
       | FLibraryId => UserForm.setLibraryId v f
       | FPassword => UserForm.setPassword v f
       end) s).

Definition openUserModal (role : UserRole) (userToEdit : option User.t)
  : World -> World :=
  onAdminDash (fun s =>
    let s1 :=
      match userToEdit with
      | Some u =>
          AdminDashboard.setIsUserEditMode true
            (AdminDashboard.setUserForm (UserForm.ofUser u) s)
      | None =>
          AdminDashboard.setIsUserEditMode false
            (AdminDashboard.setUserForm (UserForm.blank role) s)
      end in
    AdminDashboard.setIsUserModalOpen true s1).

Definition handleDeleteUser (userId : string) (w : World) : World :=
  let updatedUsers :=
    filter (fun u => negb (User.id u =? userId)%string)
           (AdminDashboard.users (adminDash w)) in
  let w1 := onStorage (Db.saveUsers updatedUsers) w in
  let w2 := loadData w1 in
  notify "User account removed." info w2.

Definition allFieldsRequired : string := "All fields are required.".

Definition libraryIdTaken : string := "This Library ID is already taken.".

Definition handleUserSubmit (now : Z) (w : World) : World :=
  let s := adminDash w in
  let userForm := AdminDashboard.userForm s in
  let isUserEditMode := AdminDashboard.isUserEditMode s in
  let users := AdminDashboard.users s in
  if negb (JS.truthy (UserForm.libraryId userForm))
     || negb (JS.truthy (UserForm.password userForm))
     || negb (JS.truthy (UserForm.name userForm))
  then notify allFieldsRequired error w
  else if negb isUserEditMode
          && JS.some (fun u => JS.strictEq (User.libraryId u)
                                           (UserForm.libraryId userForm)) users
  then notify libraryIdTaken error w
  else
    let updatedUsers :=
      if isUserEditMode && JS.truthy (UserForm.id userForm) then
        map (fun u =>
               if JS.strictEq (User.id u) (UserForm.id userForm)
               then UserForm.spreadOver u userForm
               else u)
            users
      else
        let newUser :=
          User.mk ("u" ++ JS.numeral now)
                  (BookForm.orOf (UserForm.libraryId userForm) "")
                  (UserForm.password userForm)
                  (BookForm.orOf (UserForm.name userForm) "")
                  (BookForm.orOf (UserForm.role userForm) USER) in
        users ++ [newUser] in
    let w1 := onStorage (Db.saveUsers updatedUsers) w in
    let w2 := loadData w1 in
    let w3 := closeUserModal w2 in
    notify (if isUserEditMode then "Profile updated."
            else "Account created successfully.") success w3.

Definition librarians (users : list User.t) : list User.t :=
  filter (fun u => UserRole_eqb (User.role u) ADMIN) users.

Definition normalUsers (users : list User.t) : list User.t :=
  filter (fun u => UserRole_eqb (User.role u) USER) users.

(** The "Total Fine" cell of a student's row, rendered at clock value
    [today] in the zone [zone]: the [forEach] over the books issued to the
    student. *)
Definition totalFine (zone : Zone) (user : User.t) (today : Z)
  (books : list Book.t) : Z :=
  let issuedBooks := filter (issuedToIs (User.id user)) books in
  fold_left
    (fun totalFine b =>
       match Book.isIssued b, Book.issuedDate b with
       | true, Some issued =>
           let issueDate := issued in
           let dueDate := Db.addDays zone issueDate 7 in
           if (dueDate <? today)%Z then
             let diffTime := Z.abs (today - dueDate) in
             let diffDays := JS.ceilDiv diffTime (1000 * 60 * 60 * 24) in
             totalFine + diffDays * 5
           else totalFine
       | _, _ => totalFine
       end)
    issuedBooks 0.

(** The borrower a book card of the inventory shows:
    [book.issuedToUserId ? users.find(u => u.id === book.issuedToUserId) : null]. *)
Definition issuedTo (users : list User.t) (book : Book.t) : option User.t :=
  if JS.truthy (Book.issuedToUserId book)
  then JS.find (fun u => JS.strictEq (User.id u) (Book.issuedToUserId book)) users
  else None.

(** [issuedTo?.name || 'Unknown User'] *)
Definition issuedToLabel (users : list User.t) (book : Book.t) : string :=
  JS.orStr (option_map User.name (issuedTo users book)) "Unknown User".

(** ** The application as a transition system

    One event per handler a rendered element is bound to.  An event carries
    what the handler reads from outside the state: the clock and the time
    zone, the text typed, the element clicked, the outcome of an awaited call
    or of a write that may throw.  The handlers of a
    dashboard are enabled whether or not it is the mounted one, and in any
    order; the runs of the application are among the runs of this system. *)

Inductive Event :=
| Reload (zone : Zone) (now : Z)
| TypeLibId (v : string)
| TypePassword (v : string)
| TypeName (v : string)
| Navigate (reset : bool) (v : View)
| SubmitLogin (role : UserRole)
| SubmitSignup (fault : SignupFault) (now : Z)
| Logout
| UserMount
| TypeSearch (q : string)
| ClickBook (i : nat)
| CloseDetails
| IssueBook (now : Z) (book : Book.t)
| ClickReturn
| AdminMount
| SetTab (t : Tab)
| UploadImage (u : Upload)
| DeleteBook (id : string)
| EditBook (i : nat)
| ReturnBook (bookId : string)
| AddBook
| ChangeBookField (fld : BookField) (v : string)
| SmartFillStart
| SmartFillSettle (o : Gemini.Outcome)
| SubmitBook (now : Z)
| CloseBookModal
| OpenUserModal (role : UserRole) (userToEdit : option User.t)
| DeleteUser (userId : string)
| ChangeUserField (fld : UserField) (v : string)
| SubmitUser (now : Z)
| CloseUserModal.

(** Loading the page: the state variables start afresh, local storage is
    what it was, and the mount effect of [App] runs. *)
Definition reload (zone : Zone) (now : Z) (w : World) : World :=
  appMount zone now
    (mkWorld (storage w) App.initial UserDashboard.initial
             AdminDashboard.initial).

Definition fire (e : Event) (w : World) : World :=
  match e with
  | Reload zone now => reload zone now w
  | TypeLibId v => setLibId v w
  | TypePassword v => setPassword v w
  | TypeName v => setName v w
  | Navigate reset v => navigate reset v w
  | SubmitLogin role => handleLogin role w
  | SubmitSignup fault now => handleSignup fault now w
  | Logout => handleLogout w
  | UserMount => userDashboardMount w
  | TypeSearch q => setSearchQuery q w
  | ClickBook i =>
      (* a card of the grid, which lists [filteredBooks] *)
      match nth_error (filteredBooks (UserDashboard.books (userDash w))
                         (UserDashboard.searchQuery (userDash w))) i with
      | Some book => setSelectedBook (Some book) w
      | None => w
      end
  | CloseDetails => setSelectedBook None w
  | IssueBook now book =>
      (* the dashboard receives [state.currentUser] as [currentUser] *)
      match App.currentUser (app w) with
      | Some currentUser => handleIssueBook currentUser now book w
      | None => w
      end
  | ClickReturn => handleReturnClick w
  | AdminMount => adminDashboardMount w
  | SetTab t => onAdminDash (AdminDashboard.setActiveTab t) w
  | UploadImage u => handleImageUpload u w
  | DeleteBook id => handleDeleteBook id w
  | EditBook i =>
      (* the "Edit Details" button of a card of [books] *)
      match nth_error (AdminDashboard.books (adminDash w)) i with
      | Some book => handleEditBook book w
      | None => w
      end
  | ReturnBook bookId => handleReturnBook bookId w
  | AddBook => openAddBookModal w
  | ChangeBookField fld v => changeBookField fld v w
  | SmartFillStart => handleSmartFillStart w
  | SmartFillSettle o => handleSmartFillSettle o w
  | SubmitBook now => handleBookSubmit now w
  | CloseBookModal => closeBookModal w
  | OpenUserModal role userToEdit => openUserModal role userToEdit w
  | DeleteUser userId => handleDeleteUser userId w
  | ChangeUserField fld v => changeUserField fld v w
  | SubmitUser now => handleUserSubmit now w
  | CloseUserModal => closeUserModal w
  end.

(** The world after the events of [es], the first of them first. *)
Definition run (es : list Event) (w : World) : World :=
  fold_left (fun w e => fire e w) es w.

(** First visit at clock value [t0] in the zone [zone]: local storage is
    seeded. *)
Definition boot (zone : Zone) (t0 : Z) : World := reload zone t0 freshWorld.

(** ** Predicates of the statements *)

(** The lending fields of a book agree. *)
Definition LendingConsistent (b : Book.t) : Prop :=
  (Book.isIssued b = true <-> Book.issuedToUserId b <> None)
  /\ (Book.issuedToUserId b <> None <-> Book.issuedDate b <> None).

Definition isSome {A : Type} (o : option A) : bool :=
  match o with Some _ => true | None => false end.

Definition lendingConsistent (b : Book.t) : bool :=
  Bool.eqb (Book.isIssued b) (isSome (Book.issuedToUserId b))
  && Bool.eqb (isSome (Book.issuedToUserId b)) (isSome (Book.issuedDate b)).

(** The lending properties a book form carries: none of the three, or three
    that agree. *)
Definition formLendingConsistent (f : BookForm.t) : bool :=
  match BookForm.isIssued f, BookForm.issuedToUserId f, BookForm.issuedDate f with
  | None, None, None => true
  | Some i, Some u, Some d =>
      Bool.eqb i (isSome u) && Bool.eqb (isSome u) (isSome d)
  | _, _, _ => false
  end.

(** The invariant of the transition system: the persisted books, the lists
    the two dashboards hold and the open book form have lending fields that
    agree. *)
Record Inv (w : World) : Prop := mkInv {
  inv_stored : forallb lendingConsistent (Db.getBooks (storage w)) = true;
  inv_userDash : forallb lendingConsistent (UserDashboard.books (userDash w)) = true;
  inv_adminDash : forallb lendingConsistent (AdminDashboard.books (adminDash w)) = true;
  inv_form : formLendingConsistent (AdminDashboard.bookForm (adminDash w)) = true
}.

(** Sum of a list of integers. *)
Definition sumZ (l : list Z) : Z := fold_right Z.add 0 l.

(** The books that count towards the total of [user]: issued to the user,
    flagged as issued, and carrying an issue date. *)
Definition countsFor (user : User.t) (b : Book.t) : bool :=
  issuedToIs (User.id user) b && Book.isIssued b && isSome (Book.issuedDate b).

(** What holds from the click on "Edit Details" of [book] in [w0] until the
    form is submitted, while only the form is worked on. *)
Definition Editing (book : Book.t) (w0 w : World) : Prop :=
  storage w = storage w0
  /\ AdminDashboard.books (adminDash w) = AdminDashboard.books (adminDash w0)
  /\ AdminDashboard.isEditMode (adminDash w) = true
  /\ BookForm.id (AdminDashboard.bookForm (adminDash w)) = Some (Book.id book)
  /\ BookForm.isIssued (AdminDashboard.bookForm (adminDash w))
     = Some (Book.isIssued book)
  /\ BookForm.issuedToUserId (AdminDashboard.bookForm (adminDash w))
     = Some (Book.issuedToUserId book)
  /\ BookForm.issuedDate (AdminDashboard.bookForm (adminDash w))
     = Some (Book.issuedDate book).

(** The lending fields of a book as a triple. *)
Definition lending (b : Book.t) : bool * option string * option Z :=
  (Book.isIssued b, Book.issuedToUserId b, Book.issuedDate b).

(** The events that work on the open book form and nothing else. *)
Definition isFormEdit (e : Event) : bool :=
  match e with
  | UploadImage _ | ChangeBookField _ _ | SmartFillStart | SmartFillSettle _ => true
  | _ => false
  end.

(** The events that work on the open account form and nothing else. *)
Definition isUserFormEdit (e : Event) : bool :=
  match e with
  | ChangeUserField _ _ => true
  | _ => false
  end.

(** What holds from the click on the edit button of [user] in [w0] until the
    account form is submitted, while only the form is worked on. *)
Definition EditingUser (user : User.t) (w0 w : World) : Prop :=
  storage w = storage w0
  /\ AdminDashboard.users (adminDash w) = AdminDashboard.users (adminDash w0)
  /\ AdminDashboard.isUserEditMode (adminDash w) = true
  /\ UserForm.id (AdminDashboard.userForm (adminDash w)) = Some (User.id user)
  /\ UserForm.role (AdminDashboard.userForm (adminDash w)) = Some (User.role user).

(** Every character of [s] is white space (in particular, [s] is empty). *)
Fixpoint allWhiteSpace (s : string) : bool :=
  match s with
  | EmptyString => true
  | String c s' => JS.isWhiteSpace c && allWhiteSpace s'
  end.

(** The events of the admin dashboard. *)
Definition isAdminEvent (e : Event) : bool :=
  match e with
  | AdminMount | SetTab _ | UploadImage _ | DeleteBook _ | EditBook _
  | ReturnBook _ | AddBook | ChangeBookField _ _ | SmartFillStart
  | SmartFillSettle _ | SubmitBook _ | CloseBookModal | OpenUserModal _ _
  | DeleteUser _ | ChangeUserField _ _ | SubmitUser _ | CloseUserModal => true
  | _ => false
  end.

(** The events of the user dashboard. *)
Definition isUserEvent (e : Event) : bool :=
  match e with
  | UserMount | TypeSearch _ | ClickBook _ | CloseDetails | IssueBook _ _
  | ClickReturn => true
  | _ => false
  end.

(** The events that can write the books entry of local storage: those
    whose handlers call [db.saveBooks], and a page load, which seeds. *)
Definition writesBooks (e : Event) : bool :=
  match e with
  | Reload _ _ | IssueBook _ _ | DeleteBook _ | ReturnBook _ | SubmitBook _ => true
  | _ => false
  end.

(** The events that can write the users entry: those whose handlers call
    [db.saveUsers], and a page load. *)
Definition writesUsers (e : Event) : bool :=
  match e with
  | Reload _ _ | SubmitSignup _ _ | DeleteUser _ | SubmitUser _ => true
  | _ => false
  end.

(** The events whose handlers call [db.setSession] or [db.clearSession]. *)
Definition writesSession (e : Event) : bool :=
  match e with
  | SubmitLogin _ | SubmitSignup _ _ | Logout => true
  | _ => false
  end.

(** An account with an identifier, a secret and a name, none of them empty. *)
Definition completeUser (u : User.t) : bool :=
  JS.truthyStr (User.libraryId u) && JS.truthy (User.password u)
  && JS.truthyStr (User.name u).

(** Every persisted account and every account the admin dashboard holds is
    complete. *)
Definition UsersComplete (w : World) : Prop :=
  forallb completeUser (Db.getUsers (storage w)) = true
  /\ forallb completeUser (AdminDashboard.users (adminDash w)) = true.

(** [q] occurs in [s]. *)
Definition Substring (q s : string) : Prop :=
  exists pre post : string, s = (pre ++ q ++ post)%string.

(** [l'] is [l] with the elements that fail [P] left out, in the order of
    [l]. *)
Inductive SelectedFrom {A : Type} (P : A -> Prop) : list A -> list A -> Prop :=
| sel_nil : SelectedFrom P [] []
| sel_keep x l l' : P x -> SelectedFrom P l l' -> SelectedFrom P (x :: l) (x :: l')
| sel_skip x l l' : ~ P x -> SelectedFrom P l l' -> SelectedFrom P (x :: l) l'.

(** The first element of [l] that satisfies [p] is [x]. *)
Definition FirstWith {A : Type} (p : A -> Prop) (l : list A) (x : A) : Prop :=
  exists l1 l2, l = l1 ++ x :: l2 /\ p x /\ Forall (fun y => ~ p y) l1.

(** * Properties *)

(** ** Facts about the primitives *)

Lemma nth_error_map_some {A B : Type} (f : A -> B) (l : list A) (i : nat) (x : A) :
  nth_error l i = Some x -> nth_error (map f l) i = Some (f x).
Proof.
  revert i; induction l as [|y l IH]; intros [|i] H; simpl in *;
    try discriminate.
  - now inversion H.
  - now apply IH.
Qed.

Lemma find_some_iff {A : Type} (p : A -> bool) (l : list A) (x : A) :
  JS.find p l = Some x <-> FirstWith (fun y => p y = true) l x.
Proof.
  split.
  - induction l as [|y l IH]; simpl; [discriminate|].
    destruct (p y) eqn:Hy; intros H.
    + inversion H; subst. exists [], l. repeat split; auto.
    + destruct (IH H) as (l1 & l2 & -> & Hx & Hl1).
      exists (y :: l1), l2. repeat split; auto.
      constructor; [congruence | assumption].
  - intros (l1 & l2 & -> & Hx & Hl1).
    induction Hl1 as [|y l1 Hy _ IH]; simpl.
    + now rewrite Hx.
    + destruct (p y); [congruence | exact IH].
Qed.

Lemma find_none_iff {A : Type} (p : A -> bool) (l : list A) :
  JS.find p l = None <-> forall x, In x l -> p x = false.
Proof.
  induction l as [|y l IH]; simpl.
  - split; [intros _ x [] | reflexivity].
  - destruct (p y) eqn:Hy.
    + split; [discriminate|]. intros H. specialize (H y (or_introl eq_refl)).
      congruence.
    + rewrite IH. split.
      * intros H x [<-|Hx]; auto.
      * intros H x Hx. apply H. now right.
Qed.

Lemma some_true_of_In {A : Type} (p : A -> bool) (l : list A) (x : A) :
  In x l -> p x = true -> JS.some p l = true.
Proof.
  intros Hin Hx. apply existsb_exists. now exists x.
Qed.

Lemma find_is_some_of_In {A : Type} (p : A -> bool) (l : list A) (x : A) :
  In x l -> p x = true -> exists y, JS.find p l = Some y.
Proof.
  intros Hin Hx. destruct (JS.find p l) as [y|] eqn:Hf; [now exists y|].
  rewrite find_none_iff in Hf. specialize (Hf x Hin). congruence.
Qed.

(** ** Return (C3) *)

(** C3.  [handleReturnBook bookId] writes a list of the same length in which
    the book at every position whose id is [bookId] has [isIssued = false],
    [issuedToUserId = null] and [issuedDate = null] (whoever it was issued
    to) with its catalogue fields kept, and the book at every other position
    is the one that was there.  The dashboard's list after the handler is the
    persisted one. *)
Theorem handleReturnBook_clears (bookId : string) (w : World) (i : nat) (b : Book.t) :
  nth_error (AdminDashboard.books (adminDash w)) i = Some b ->
  let w' := handleReturnBook bookId w in
  AdminDashboard.books (adminDash w') = Db.getBooks (storage w')
  /\ List.length (Db.getBooks (storage w')) = List.length (AdminDashboard.books (adminDash w))
  /\ exists b',
      nth_error (Db.getBooks (storage w')) i = Some b'
      /\ (Book.id b = bookId ->
          Book.isIssued b' = false /\ Book.issuedToUserId b' = None
          /\ Book.issuedDate b' = None /\ b' = markReturned b)
      /\ (Book.id b <> bookId -> b' = b).
Proof.
  intros Hb w'. subst w'. unfold handleReturnBook. cbn.
  split; [reflexivity|]. split; [apply length_map|].
  eexists. split.
  - apply nth_error_map_some. exact Hb.
  - cbv beta. destruct (String.eqb_spec (Book.id b) bookId) as [He|Hne].
    + split; [intros _; repeat split | intros Hc; contradiction].
    + split; [intros Hc; contradiction | reflexivity].
Qed.

Lemma handleReturnBook_clears_witness :
  let w := adminDashboardMount (boot utc 1700000000000) in
  nth_error (AdminDashboard.books (adminDash w)) 2
  = nth_error (Db.initialBooks utc 1700000000000) 2
  /\ exists b',
      nth_error (Db.getBooks (storage (handleReturnBook "b3" w))) 2 = Some b'
      /\ Book.title b' = "Clean Code"
      /\ lending b' = (false, None, None).
Proof.
  split; [reflexivity|].
  destruct (handleReturnBook_clears "b3"
              (adminDashboardMount (boot utc 1700000000000)) 2 _ eq_refl)
    as (_ & _ & b' & Hnth & Hsame & _).
  exists b'. split; [exact Hnth|].
  destruct (Hsame eq_refl) as (_ & _ & _ & ->). split; reflexivity.
Defined.

(** ** Issue (C2) *)

(** C2.  When the book handed to [handleIssueBook] has [isIssued = false],
    the handler writes a list of the same length in which the book at every
    position with that book's id has [isIssued = true], the acting user's id
    as [issuedToUserId] and the current time as [issuedDate], its catalogue
    fields kept, and every other position holds the book that was there; in
    particular the position of the book itself.  When the book has
    [isIssued = true] the handler changes nothing at all. *)
Theorem handleIssueBook_spec (currentUser : User.t) (now : Z) (book : Book.t)
  (w : World) :
  (Book.isIssued book = false ->
   let w' := handleIssueBook currentUser now book w in
   UserDashboard.books (userDash w') = Db.getBooks (storage w')
   /\ List.length (Db.getBooks (storage w'))
      = List.length (UserDashboard.books (userDash w))
   /\ (forall i b,
         nth_error (UserDashboard.books (userDash w)) i = Some b ->
         exists b',
           nth_error (Db.getBooks (storage w')) i = Some b'
           /\ (Book.id b = Book.id book ->
               Book.isIssued b' = true
               /\ Book.issuedToUserId b' = Some (User.id currentUser)
               /\ Book.issuedDate b' = Some now
               /\ b' = markIssued (User.id currentUser) now b)
           /\ (Book.id b <> Book.id book -> b' = b)))
  /\ (Book.isIssued book = true ->
      handleIssueBook currentUser now book w = w).
Proof.
  unfold handleIssueBook. split; intros Hissued; rewrite Hissued; cbn;
    [|reflexivity].
  split; [reflexivity|]. split; [apply length_map|].
  intros i b Hb. eexists. split.
  - apply nth_error_map_some, Hb.
  - cbv beta. destruct (String.eqb_spec (Book.id b) (Book.id book)).
    + split; [intros _; repeat split | tauto].
    + split; [tauto | reflexivity].
Qed.

Lemma handleIssueBook_spec_witness :
  let w := userDashboardMount (boot utc 1700000000000) in
  let john := User.mk "user1" "user" (Some "123") "John Doe" USER in
  exists gatsby,
    nth_error (UserDashboard.books (userDash w)) 0 = Some gatsby
    /\ Book.isIssued gatsby = false
    /\ exists b',
        nth_error (Db.getBooks (storage (handleIssueBook john 1700000600000 gatsby w))) 0
        = Some b'
        /\ Book.title b' = "The Great Gatsby"
        /\ lending b' = (true, Some "user1", Some 1700000600000).
Proof.
  intros w john. eexists. split; [reflexivity|]. split; [reflexivity|].
  match goal with
  | |- context [handleIssueBook _ _ ?g _] =>
      destruct (handleIssueBook_spec john 1700000600000 g w) as [Hfree _]
  end.
  destruct (Hfree eq_refl) as (_ & _ & Hpos).
  destruct (Hpos 0%nat _ eq_refl) as (b' & Hnth & Hsame & _).
  exists b'. split; [exact Hnth|].
  destruct (Hsame eq_refl) as (_ & _ & _ & ->). split; reflexivity.
Defined.

(** ** Fines (C4) *)

Lemma msPerDay_value : Db.msPerDay = 86400000.
Proof. reflexivity. Qed.

(** [JS.ceilDiv a b] is the least integer [n] with [a <= n * b]. *)
Lemma ceilDiv_bounds (a b : Z) :
  0 < b -> (JS.ceilDiv a b - 1) * b < a <= JS.ceilDiv a b * b.
Proof.
  intros Hb. unfold JS.ceilDiv.
  pose proof (Z.mul_div_le (- a) b Hb) as Hle.
  pose proof (Z.mul_succ_div_gt (- a) b Hb) as Hgt.
  nia.
Qed.

Lemma ceilDiv_unique (a b n : Z) :
  0 < b -> (n - 1) * b < a <= n * b -> JS.ceilDiv a b = n.
Proof.
  intros Hb Hn. pose proof (ceilDiv_bounds a b Hb) as Hc. nia.
Qed.

Lemma totalFine_fold (zone : Zone) (today acc : Z) (l : list Book.t) :
  fold_left
    (fun totalFine b =>
       match Book.isIssued b, Book.issuedDate b with
       | true, Some issued =>
           if (Db.addDays zone issued 7 <? today)%Z then
             totalFine
             + JS.ceilDiv (Z.abs (today - Db.addDays zone issued 7))
                 (1000 * 60 * 60 * 24) * 5
           else totalFine
       | _, _ => totalFine
       end) l acc
  = acc + sumZ (map (fun b => fine (loanCard zone today b))
                  (filter (fun b => Book.isIssued b && isSome (Book.issuedDate b)) l)).
Proof.
  revert acc. induction l as [|b l IH]; intros acc;
    cbn [fold_left filter map sumZ fold_right].
  - unfold sumZ. simpl. lia.
  - rewrite IH.
    destruct (Book.isIssued b), (Book.issuedDate b) as [issued|] eqn:Hd;
      cbn [andb isSome map]; try reflexivity.
    unfold sumZ. cbn [fold_right]. unfold loanCard. rewrite Hd.
    cbn [dateOf fine].
    destruct (Db.addDays zone issued 7 <? today)%Z; lia.
Qed.

(** In a zone whose clocks never change, [n] days are [n] times 24 hours. *)
Lemma addDays_fixedZone (c t n : Z) :
  Db.addDays (fixedZone c) t n = t + n * Db.msPerDay.
Proof. unfold Db.addDays, utcTime, localTime. simpl. lia. Qed.

Lemma filter_filter {A : Type} (p q : A -> bool) (l : list A) :
  filter q (filter p l) = filter (fun x => p x && q x) l.
Proof.
  induction l as [|x l IH]; simpl; [reflexivity|].
  destruct (p x); simpl; [destruct (q x)|]; now rewrite IH.
Qed.

(** C4 as stated fails where the clocks change.  In Eastern time a book
    issued on 8 March 2024 at noon is due on 15 March at noon, which is one
    hour less than 7 times 24 hours later, the clocks having gone forward in
    between.  Read exactly 14 times 24 hours after the issue the card shows 8
    overdue days and a fine of 40, not 7 and 35; read half an hour before 7
    times 24 hours have passed it shows a fine of 5, not 0.  Counting in
    calendar days does not save the example: a book issued on 25 October 2024
    at noon and read on 8 November at noon, 14 calendar days later and after
    the clocks went back, shows a fine of 40 as well. *)
Lemma fine_after_clock_change :
  let issued := 1709917200000 in
  let issued' := 1729872000000 in
  let loan := fun d =>
    Book.mk "b3" "Clean Code" "Robert C. Martin" "Technology"
      None "T5" true (Some "user1") (Some d) None in
  dueDate (loanCard newYork2024 (issued + 14 * Db.msPerDay) (loan issued))
  = issued + 7 * Db.msPerDay - 3600000
  /\ diffDays (loanCard newYork2024 (issued + 14 * Db.msPerDay) (loan issued)) = 8
  /\ fine (loanCard newYork2024 (issued + 14 * Db.msPerDay) (loan issued)) = 40
  /\ issued + 7 * Db.msPerDay - 1800000 <= issued + 7 * Db.msPerDay
  /\ fine (loanCard newYork2024 (issued + 7 * Db.msPerDay - 1800000) (loan issued))
     = 5
  /\ Db.addDays newYork2024 issued' 14 = issued' + 14 * Db.msPerDay + 3600000
  /\ fine (loanCard newYork2024 (Db.addDays newYork2024 issued' 14) (loan issued'))
     = 40.
Proof. repeat split; try reflexivity. discriminate. Qed.

(** C4, amended.  For a book issued at [issued], the card rendered at
    [today] has as due date the issue date moved seven calendar days on in
    local time, [Db.addDays zone issued 7]; its fine is 0 while
    [today <= due], and otherwise 5 times the number of days [n] with
    [(n - 1) days < today - due <= n days], the ceiling of the overdue time
    in days of 24 hours.  When no change of the clocks falls between issue
    and due date, so that the due date is 7 times 24 hours after the issue,
    the card read exactly 14 days after the issue shows 7 overdue days and a
    fine of 35, and read 3 days after, a fine of 0.  The fine is a function
    of the stored date, the zone and the time of the reading; no field of a
    book holds it.  The total in the admin's student table is the sum of
    these fines over the books issued to the student. *)
Theorem fine_spec (zone : Zone) (issued today : Z) (book : Book.t)
  (user : User.t) (books : list Book.t) :
  Book.issuedDate book = Some issued ->
  let due := Db.addDays zone issued 7 in
  (dueDate (loanCard zone today book) = due
   /\ (today <= due -> fine (loanCard zone today book) = 0)
   /\ (today > due ->
       exists overdueDays,
         (overdueDays - 1) * Db.msPerDay < today - due <= overdueDays * Db.msPerDay
         /\ diffDays (loanCard zone today book) = overdueDays
         /\ isOverdue (loanCard zone today book) = true
         /\ fine (loanCard zone today book) = overdueDays * 5))
  /\ (due = issued + 7 * Db.msPerDay ->
      diffDays (loanCard zone (issued + 14 * Db.msPerDay) book) = 7
      /\ fine (loanCard zone (issued + 14 * Db.msPerDay) book) = 35
      /\ fine (loanCard zone (issued + 3 * Db.msPerDay) book) = 0)
  /\ totalFine zone user today books
     = sumZ (map (fun b => fine (loanCard zone today b))
               (filter (countsFor user) books)).
Proof.
  intros Hissued due.
  assert (Hcard : forall t,
             loanCard zone t book
             = mkLoanCard due (due <? t)%Z
                 (JS.ceilDiv (Z.abs (t - due)) 86400000)
                 (if (due <? t)%Z
                  then JS.ceilDiv (Z.abs (t - due)) 86400000 * 5 else 0)).
  { intros t. unfold loanCard. rewrite Hissued. reflexivity. }
  split; [split; [|split] | split].
  - now rewrite Hcard.
  - intros Hle. rewrite Hcard. cbn [fine].
    destruct (Z.ltb_spec due today); [lia | reflexivity].
  - intros Hgt. rewrite Hcard. cbn [fine diffDays isOverdue].
    destruct (Z.ltb_spec due today) as [_|]; [|lia].
    exists (JS.ceilDiv (Z.abs (today - due)) 86400000).
    rewrite msPerDay_value. repeat split; try reflexivity;
      pose proof (ceilDiv_bounds (Z.abs (today - due)) 86400000 eq_refl); lia.
  - intros Hdue. rewrite !Hcard. cbn [fine diffDays].
    rewrite msPerDay_value in *.
    assert (H14 : JS.ceilDiv (Z.abs (issued + 14 * 86400000 - due)) 86400000 = 7).
    { apply ceilDiv_unique; [reflexivity|]. lia. }
    rewrite H14.
    destruct (Z.ltb_spec due (issued + 14 * 86400000)); [|lia].
    destruct (Z.ltb_spec due (issued + 3 * 86400000)); [lia|].
    repeat split.
  - unfold totalFine. cbv zeta. rewrite totalFine_fold, filter_filter.
    cbn [Z.add]. f_equal. f_equal. apply filter_ext. intros b.
    unfold countsFor. now rewrite andb_assoc.
Qed.

Lemma fine_spec_witness :
  let t0 := 1700000000000 in
  let cleanCode :=
    Book.mk "b3" "Clean Code" "Robert C. Martin" "Technology"
      (Some "https://picsum.photos/300/450?random=3") "T5"
      true (Some "user1") (Some (Db.getPastDate utc t0 14))
      (Some "A handbook of agile software craftsmanship.") in
  nth_error (Db.initialBooks utc t0) 2 = Some cleanCode
  /\ Book.issuedDate cleanCode = Some (t0 - 14 * 86400000)
  /\ Db.addDays utc (t0 - 14 * 86400000) 7 = t0 - 14 * 86400000 + 7 * Db.msPerDay
  /\ fine (loanCard utc t0 cleanCode) = 35
  /\ fine (loanCard utc (t0 - 11 * 86400000) cleanCode) = 0
  /\ totalFine utc (User.mk "user1" "user" (Some "123") "John Doe" USER) t0
       (Db.initialBooks utc t0) = 35.
Proof.
  intros t0 cleanCode. split; [reflexivity|]. split; [reflexivity|].
  split; [reflexivity|].
  pose proof (fine_spec utc (t0 - 14 * 86400000) t0 cleanCode
                (User.mk "user1" "user" (Some "123") "John Doe" USER)
                (Db.initialBooks utc t0) eq_refl) as (_ & H14 & Htot).
  destruct (H14 eq_refl) as (_ & H35 & H0).
  split; [exact H35|]. split; [exact H0|].
  rewrite Htot. reflexivity.
Defined.

(** ** Lists kept in order *)

Lemma filter_SelectedFrom {A : Type} (p : A -> bool) (P : A -> Prop) (l : list A) :
  (forall x, p x = true <-> P x) -> SelectedFrom P l (filter p l).
Proof.
  intros HpP. induction l as [|x l IH]; simpl.
  - constructor.
  - destruct (p x) eqn:Hx.
    + apply sel_keep; [now apply HpP | exact IH].
    + apply sel_skip; [|exact IH]. intros HP. apply HpP in HP. congruence.
Qed.

(** A list has one selection by a predicate. *)
Lemma SelectedFrom_functional {A : Type} (P : A -> Prop) (l l1 l2 : list A) :
  SelectedFrom P l l1 -> SelectedFrom P l l2 -> l1 = l2.
Proof.
  intros H1. revert l2.
  induction H1 as [|x l l1 Hx _ IH|x l l1 Hx _ IH]; intros l2 H2;
    inversion H2; subst; try contradiction; auto.
  f_equal. now apply IH.
Qed.

Lemma SelectedFrom_In {A : Type} (P : A -> Prop) (l l' : list A) (x : A) :
  SelectedFrom P l l' -> (In x l' <-> In x l /\ P x).
Proof.
  induction 1 as [|y l l' Hy _ IH|y l l' Hy _ IH]; simpl.
  - tauto.
  - rewrite IH. split.
    + intros [<-|[Hin HP]]; auto.
    + intros [[<-|Hin] HP]; auto.
  - rewrite IH. split.
    + intros [Hin HP]; auto.
    + intros [[<-|Hin] HP]; [contradiction | auto].
Qed.

(** ** Deleting a user (C10) *)

(** No user of the list has the id a book refers to: the card finds no
    borrower. *)
Lemma issuedTo_dangling (users : list User.t) (b : Book.t) (userId : string) :
  Book.issuedToUserId b = Some userId ->
  (forall u, In u users -> User.id u <> userId) ->
  issuedTo users b = None.
Proof.
  intros Hto Hnone. unfold issuedTo.
  destruct (JS.truthy (Book.issuedToUserId b)); [|reflexivity].
  apply find_none_iff. intros u Hu. rewrite Hto. simpl.
  apply String.eqb_neq. now apply Hnone.
Qed.

(** C10.  [handleDeleteUser userId] persists the users whose id is not
    [userId], in their order, and leaves the stored books as they were.  A
    book that was issued to the deleted user is still stored with
    [isIssued = true] and that user's id in [issuedToUserId]; the inventory
    card finds no borrower for it and shows "Unknown User". *)
Theorem handleDeleteUser_frame (userId : string) (w : World) :
  let w' := handleDeleteUser userId w in
  Db.BOOKS (storage w') = Db.BOOKS (storage w)
  /\ AdminDashboard.books (adminDash w') = Db.getBooks (storage w)
  /\ AdminDashboard.users (adminDash w') = Db.getUsers (storage w')
  /\ SelectedFrom (fun u => User.id u <> userId)
       (AdminDashboard.users (adminDash w)) (Db.getUsers (storage w'))
  /\ (forall b,
        In b (Db.getBooks (storage w)) ->
        Book.isIssued b = true ->
        Book.issuedToUserId b = Some userId ->
        In b (Db.getBooks (storage w'))
        /\ issuedTo (Db.getUsers (storage w')) b = None
        /\ issuedToLabel (Db.getUsers (storage w')) b = "Unknown User").
Proof.
  set (kept := filter (fun u => negb (User.id u =? userId)%string)
                 (AdminDashboard.users (adminDash w))).
  assert (Hkept : forall u, In u kept -> User.id u <> userId).
  { intros u Hu. apply filter_In in Hu as [_ Hu].
    apply String.eqb_neq. now destruct (User.id u =? userId)%string. }
  cbn. fold kept. repeat split.
  - apply filter_SelectedFrom. intros u.
    destruct (String.eqb_spec (User.id u) userId); simpl; split; congruence.
  - assumption.
  - eapply issuedTo_dangling; eassumption.
  - unfold issuedToLabel.
    erewrite issuedTo_dangling by eassumption. reflexivity.
Qed.

Lemma handleDeleteUser_frame_witness :
  let w := adminDashboardMount (boot utc 1700000000000) in
  let w' := handleDeleteUser "user1" w in
  exists b,
    nth_error (Db.getBooks (storage w)) 2 = Some b
    /\ Book.issuedToUserId b = Some "user1"
    /\ In b (Db.getBooks (storage w'))
    /\ issuedToLabel (Db.getUsers (storage w')) b = "Unknown User"
    /\ map User.id (Db.getUsers (storage w')) = ["admin1"].
Proof.
  intros w w'. eexists. split; [reflexivity|]. split; [reflexivity|].
  pose proof (handleDeleteUser_frame "user1" w) as (_ & _ & _ & _ & Hbook).
  match goal with
  | |- In ?b _ /\ _ =>
      destruct (Hbook b (or_intror (or_intror (or_introl eq_refl)))
                  eq_refl eq_refl) as (Hin & _ & Hlabel)
  end.
  split; [exact Hin|]. split; [exact Hlabel | reflexivity].
Defined.

(** ** Search (C8) *)

Lemma startsWith_iff (s q : string) :
  JS.startsWith s q = true <-> exists post, s = (q ++ post)%string.
Proof.
  revert s. induction q as [|a q IH]; intros s; simpl.
  - split; [intros _; now exists s | reflexivity].
  - destruct s as [|b s].
    + split; [discriminate | intros [post H]; discriminate].
    + rewrite andb_true_iff, IH. split.
      * intros [Hab [post ->]]. apply Ascii.eqb_eq in Hab as ->. now exists post.
      * intros [post H]. inversion H; subst. split.
        -- apply Ascii.eqb_refl.
        -- now exists post.
Qed.

Lemma includes_iff (s q : string) :
  JS.includes s q = true <-> Substring q s.
Proof.
  unfold Substring. induction s as [|c s IH].
  - simpl. rewrite orb_false_r, startsWith_iff. split.
    + intros [post H]. now exists ""%string, post.
    + intros ([|c pre] & post & H); [now exists post | discriminate].
  - cbn [JS.includes]. rewrite orb_true_iff, startsWith_iff, IH. split.
    + intros [[post H]|(pre & post & H)].
      * now exists ""%string, post.
      * exists (String c pre), post. simpl. now rewrite H.
    + intros ([|c' pre] & post & H).
      * left. now exists post.
      * right. inversion H; subst. now exists pre, post.
Qed.

(** C8.  [filteredBooks books q] is the selection from [books], in the order
    of [books], of the books for which the lower-cased query occurs in the
    lower-cased title or in the lower-cased author or in the lower-cased
    genre; so a book is in the result exactly when it is in the collection
    and one of the three fields matches. *)
Theorem filteredBooks_spec (books : list Book.t) (searchQuery : string) :
  let hit (field : Book.t -> string) (b : Book.t) :=
    Substring (JS.toLowerCase searchQuery) (JS.toLowerCase (field b)) in
  SelectedFrom (fun b => hit Book.title b \/ hit Book.author b \/ hit Book.genre b)
    books (filteredBooks books searchQuery)
  /\ forall b,
      In b (filteredBooks books searchQuery)
      <-> In b books /\ (hit Book.title b \/ hit Book.author b \/ hit Book.genre b).
Proof.
  intros hit.
  assert (Hsel : SelectedFrom
            (fun b => hit Book.title b \/ hit Book.author b \/ hit Book.genre b)
            books (filteredBooks books searchQuery)).
  { apply filter_SelectedFrom. intros b. unfold matchesQuery, hit.
    rewrite !orb_true_iff, !includes_iff. tauto. }
  split; [exact Hsel|]. intros b. exact (SelectedFrom_In _ _ _ b Hsel).
Qed.

Example filteredBooks_genre_only :
  map Book.id (filteredBooks (Db.initialBooks utc 0) "TECH") = ["b3"]
  /\ map Book.id (filteredBooks (Db.initialBooks utc 0) "cLaS") = ["b1"]
  /\ map Book.id (filteredBooks (Db.initialBooks utc 0) "ge") = ["b1"; "b2"]
  /\ map Book.id (filteredBooks (Db.initialBooks utc 0) "") = ["b1"; "b2"; "b3"].
Proof. repeat split; reflexivity. Qed.

(** ** Smart fill (C7) *)

(** C7 as stated fails: an author typed by hand is replaced by the author
    the service returns. *)
Lemma smartFill_replaces_typed_author :
  let form := BookForm.setAuthor "Jane Austen" (BookForm.setTitle "Emma" BookForm.blank) in
  let data := Gemini.mkDetails "J. Austen" "Novel" "A comedy of manners." None in
  let w := onAdminDash (AdminDashboard.setBookForm form) freshWorld in
  let form' := AdminDashboard.bookForm
                 (adminDash (handleSmartFill (Gemini.Resolved (Some data)) w)) in
  JS.truthy (BookForm.author form) = true
  /\ BookForm.author form = Some "Jane Austen"
  /\ BookForm.author form' = Some "J. Austen"
  /\ BookForm.author form' <> BookForm.author form.
Proof. repeat split. discriminate. Qed.

(** C7, amended.  When the awaited call gives no data ([null]) or fails, the
    form is the form it was.  When it gives data, the form takes the author,
    the genre and the description of the data, whatever was typed before; its
    cover stays when it is a non-empty string and is the cover of the data
    otherwise; id, title, stand number and the lending properties stay.
    Local storage is untouched in every case, and a run of [handleSmartFill]
    on a form without a title leaves the form alone. *)
Theorem handleSmartFill_merge (o : Gemini.Outcome) (w : World) :
  let form := AdminDashboard.bookForm (adminDash w) in
  let form' := AdminDashboard.bookForm (adminDash (handleSmartFillSettle o w)) in
  storage (handleSmartFillSettle o w) = storage w
  /\ AdminDashboard.bookForm (adminDash (handleSmartFill o w))
     = (if JS.truthy (BookForm.title form) then form' else form)
  /\ match o with
     | Gemini.Resolved (Some data) =>
         BookForm.author form' = Some (Gemini.author data)
         /\ BookForm.genre form' = Some (Gemini.genre data)
         /\ BookForm.description form' = Some (Gemini.description data)
         /\ BookForm.coverUrl form'
            = Some (if JS.truthy (BookForm.cover form)
                    then BookForm.cover form else Gemini.coverUrl data)
         /\ BookForm.id form' = BookForm.id form
         /\ BookForm.title form' = BookForm.title form
         /\ BookForm.standNumber form' = BookForm.standNumber form
         /\ BookForm.isIssued form' = BookForm.isIssued form
         /\ BookForm.issuedToUserId form' = BookForm.issuedToUserId form
         /\ BookForm.issuedDate form' = BookForm.issuedDate form
     | Gemini.Resolved None | Gemini.Rejected => form' = form
     end.
Proof.
  intros form form'. subst form form'. split; [|split].
  - destruct o as [[data|]|]; reflexivity.
  - unfold handleSmartFill, handleSmartFillStart.
    destruct (JS.truthy (BookForm.title (AdminDashboard.bookForm (adminDash w))));
      [|reflexivity].
    destruct o as [[data|]|]; reflexivity.
  - destruct o as [[data|]|]; cbn; try reflexivity.
    repeat split.
Qed.

Example smartFill_keeps_uploaded_cover :
  let form := BookForm.setCoverUrl (Some "data:image/jpeg;base64,AAAA")
                (BookForm.setTitle "Emma" BookForm.blank) in
  let data := Gemini.mkDetails "J. Austen" "Novel" "A comedy of manners."
                (Some "https://picsum.photos/300/450") in
  let w := onAdminDash (AdminDashboard.setBookForm form) freshWorld in
  BookForm.cover (AdminDashboard.bookForm
                    (adminDash (handleSmartFill (Gemini.Resolved (Some data)) w)))
  = Some "data:image/jpeg;base64,AAAA"
  /\ AdminDashboard.bookForm (adminDash (handleSmartFill (Gemini.Resolved None) w))
     = form.
Proof. split; reflexivity. Qed.

(** ** Editing a book (C9) *)

Lemma Editing_start (w : World) (book : Book.t) :
  Editing book w (handleEditBook book w).
Proof. repeat split. Qed.

Lemma Editing_step (book : Book.t) (w0 w : World) (e : Event) :
  isFormEdit e = true -> Editing book w0 w -> Editing book w0 (fire e w).
Proof.
  intros He Hw. destruct e; try discriminate He; cbn [fire].
  - destruct u; exact Hw.
  - destruct fld; exact Hw.
  - unfold handleSmartFillStart.
    destruct (negb _); exact Hw.
  - destruct o as [[data|]|]; exact Hw.
Qed.

Lemma Editing_run (book : Book.t) (w0 : World) (es : list Event) :
  forallb isFormEdit es = true ->
  forall w, Editing book w0 w -> Editing book w0 (run es w).
Proof.
  unfold run. induction es as [|e es IH]; simpl; intros Hes w Hw.
  - exact Hw.
  - apply andb_true_iff in Hes as [He Hes].
    apply IH; [exact Hes|]. now apply Editing_step.
Qed.

Lemma lending_spreadOver (b : Book.t) (f : BookForm.t) (i : bool)
  (u : option string) (d : option Z) :
  BookForm.isIssued f = Some i ->
  BookForm.issuedToUserId f = Some u ->
  BookForm.issuedDate f = Some d ->
  lending (BookForm.spreadOver b f) = (i, u, d).
Proof.
  intros Hi Hu Hd. unfold lending, BookForm.spreadOver. simpl.
  now rewrite Hi, Hu, Hd.
Qed.

Lemma nth_error_app_some {A : Type} (l l' : list A) (i : nat) (x : A) :
  nth_error l i = Some x -> nth_error (l ++ l') i = Some x.
Proof.
  intros H. rewrite nth_error_app1; [exact H|].
  apply nth_error_Some. congruence.
Qed.

(** C9.  The admin opens the edit form on the book at position [i], works on
    the form (typing into its fields, uploading a cover, smart fill) and
    submits.  If the title or the stand number was emptied nothing is saved.
    Otherwise the saved list holds, at the position of the book, a book with
    the lending fields the book had when the form was opened, and at every
    position whose book has another id the book that was there; the list has
    the length it had (for a book whose id is not the empty string). *)
Theorem edit_keeps_lending (w : World) (i : nat) (book : Book.t)
  (edits : list Event) (now : Z) :
  nth_error (AdminDashboard.books (adminDash w)) i = Some book ->
  forallb isFormEdit edits = true ->
  let w1 := run edits (fire (EditBook i) w) in
  let w' := fire (SubmitBook now) w1 in
  let form := AdminDashboard.bookForm (adminDash w1) in
  if JS.truthy (BookForm.title form) && JS.truthy (BookForm.standNumber form)
  then
    (exists b', nth_error (Db.getBooks (storage w')) i = Some b'
                /\ lending b' = lending book)
    /\ (forall j b,
          nth_error (AdminDashboard.books (adminDash w)) j = Some b ->
          exists b',
            nth_error (Db.getBooks (storage w')) j = Some b'
            /\ (Book.id b <> Book.id book -> b' = b)
            /\ (Book.id b = Book.id book -> lending b' = lending book \/ b' = b))
    /\ (Book.id book <> "" ->
        List.length (Db.getBooks (storage w'))
        = List.length (AdminDashboard.books (adminDash w)))
  else storage w' = storage w.
Proof.
  intros Hbook Hedits w1 w' form.
  assert (Hed : Editing book w w1).
  { subst w1. apply Editing_run; [exact Hedits|].
    cbn [fire]. rewrite Hbook. apply Editing_start. }
  destruct Hed as (Hst & Hbooks & Hmode & Hid & Hi & Hu & Hd).
  fold form in Hid, Hi, Hu, Hd.
  subst w'. cbn [fire]. unfold handleBookSubmit. fold form.
  rewrite <- negb_andb.
  destruct (JS.truthy (BookForm.title form) && JS.truthy (BookForm.standNumber form));
    cbn [negb]; [|exact Hst].
  rewrite Hmode, Hid, Hbooks. cbn [andb JS.truthy].
  destruct (JS.truthyStr (Book.id book)) eqn:Hnonempty; cbn.
  - assert (Hpos : forall j b,
               nth_error (AdminDashboard.books (adminDash w)) j = Some b ->
               exists b',
                 nth_error
                   (map (fun b0 => if (Book.id b0 =? Book.id book)%string
                                   then BookForm.spreadOver b0 form else b0)
                      (AdminDashboard.books (adminDash w))) j = Some b'
                 /\ (Book.id b <> Book.id book -> b' = b)
                 /\ (Book.id b = Book.id book -> lending b' = lending book)).
    { intros j b Hb. eexists. split; [apply nth_error_map_some, Hb|].
      cbv beta. destruct (String.eqb_spec (Book.id b) (Book.id book)).
      - split; [tauto|]. intros _. now apply lending_spreadOver.
      - split; [reflexivity | tauto]. }
    split; [|split].
    + destruct (Hpos i book Hbook) as (b' & Hnth & _ & Hl). eauto.
    + intros j b Hb. destruct (Hpos j b Hb) as (b' & Hnth & Hne & Hl).
      exists b'. repeat split; auto.
    + intros _. apply length_map.
  - split; [|split].
    + exists book. split; [|reflexivity]. now apply nth_error_app_some.
    + intros j b Hb. exists b. split; [now apply nth_error_app_some|]. auto.
    + intros Hne. unfold JS.truthyStr in Hnonempty.
      apply negb_false_iff, String.eqb_eq in Hnonempty. contradiction.
Qed.

Lemma edit_keeps_lending_witness :
  let t0 := 1700000000000 in
  let w := adminDashboardMount (boot utc t0) in
  let data := Gemini.mkDetails "Robert C. Martin" "Software" "On writing code."
                (Some "https://picsum.photos/300/450") in
  let edits := [ ChangeBookField FTitle "Clean Code, 2nd ed."; SmartFillStart;
                 SmartFillSettle (Gemini.Resolved (Some data));
                 UploadImage (Resized "data:image/jpeg;base64,AAAA") ] in
  let w' := fire (SubmitBook (t0 + 60000)) (run edits (fire (EditBook 2) w)) in
  exists cleanCode,
    nth_error (AdminDashboard.books (adminDash w)) 2 = Some cleanCode
    /\ forallb isFormEdit edits = true
    /\ (exists b',
          nth_error (Db.getBooks (storage w')) 2 = Some b'
          /\ lending b' = lending cleanCode)
    /\ lending cleanCode = (true, Some "user1", Some (t0 - 14 * 86400000))
    /\ option_map Book.title (nth_error (Db.getBooks (storage w')) 2)
       = Some "Clean Code, 2nd ed."
    /\ option_map Book.genre (nth_error (Db.getBooks (storage w')) 2)
       = Some "Software".
Proof.
  intros t0 w data edits w'. eexists. split; [reflexivity|].
  split; [reflexivity|]. split.
  - pose proof (edit_keeps_lending w 2 _ edits (t0 + 60000) eq_refl eq_refl)
      as Hedit.
    cbv zeta in Hedit.
    match type of Hedit with
    | if ?c then _ else _ =>
        replace c with true in Hedit by (vm_compute; reflexivity)
    end.
    destruct Hedit as (Hpos & _). exact Hpos.
  - split; [reflexivity|]. split; reflexivity.
Defined.

(** ** The lending invariant (C1) *)

Lemma lendingConsistent_iff (b : Book.t) :
  lendingConsistent b = true <-> LendingConsistent b.
Proof.
  unfold lendingConsistent, LendingConsistent.
  destruct (Book.isIssued b), (Book.issuedToUserId b), (Book.issuedDate b);
    simpl; split; try discriminate; try reflexivity;
    try (intros _; split; split; congruence);
    intros [[H1 H2] [H3 H4]]; exfalso;
    solve [ discriminate (H2 ltac:(discriminate))
          | now apply H1
          | now apply H3
          | discriminate (H4 ltac:(discriminate))
          | now apply H4 ].
Qed.

Section Forallb.

Context {A : Type} (p : A -> bool).

Lemma forallb_map_same (f : A -> A) (l : list A) :
  (forall x, p x = true -> p (f x) = true) ->
  forallb p l = true -> forallb p (map f l) = true.
Proof.
  intros Hf. induction l as [|x l IH]; simpl; [reflexivity|].
  rewrite !andb_true_iff. intros [Hx Hl]. auto.
Qed.

Lemma forallb_filter_same (q : A -> bool) (l : list A) :
  forallb p l = true -> forallb p (filter q l) = true.
Proof.
  induction l as [|x l IH]; simpl; [reflexivity|].
  rewrite andb_true_iff. intros [Hx Hl].
  destruct (q x); simpl; [rewrite Hx|]; auto.
Qed.

Lemma forallb_snoc (l : list A) (x : A) :
  forallb p l = true -> p x = true -> forallb p (l ++ [x]) = true.
Proof.
  intros Hl Hx. rewrite forallb_app, Hl. simpl. now rewrite Hx.
Qed.

Lemma forallb_nth_error (l : list A) (i : nat) (x : A) :
  forallb p l = true -> nth_error l i = Some x -> p x = true.
Proof.
  intros Hl Hx. apply nth_error_In in Hx.
  rewrite forallb_forall in Hl. now apply Hl.
Qed.

End Forallb.

Lemma lendingConsistent_markIssued (userId : string) (now : Z) (b : Book.t) :
  lendingConsistent (markIssued userId now b) = true.
Proof. reflexivity. Qed.

Lemma lendingConsistent_markReturned (b : Book.t) :
  lendingConsistent (markReturned b) = true.
Proof. reflexivity. Qed.

Lemma formLendingConsistent_ofBook (b : Book.t) :
  lendingConsistent b = true -> formLendingConsistent (BookForm.ofBook b) = true.
Proof. intros H. exact H. Qed.

Lemma lendingConsistent_spreadOver (b : Book.t) (f : BookForm.t) :
  lendingConsistent b = true -> formLendingConsistent f = true ->
  lendingConsistent (BookForm.spreadOver b f) = true.
Proof.
  unfold formLendingConsistent, lendingConsistent, BookForm.spreadOver.
  simpl.
  destruct (BookForm.isIssued f), (BookForm.issuedToUserId f),
    (BookForm.issuedDate f); simpl; intros Hb Hf;
    solve [discriminate Hf | exact Hf | exact Hb].
Qed.

Lemma initialBooks_consistent (zone : Zone) (now : Z) :
  forallb lendingConsistent (Db.initialBooks zone now) = true.
Proof. reflexivity. Qed.

(** A world with the same stored books, the same lists in the dashboards and
    a form with the same lending properties satisfies the invariant too. *)
Lemma Inv_same (w w' : World) :
  Db.getBooks (storage w') = Db.getBooks (storage w) ->
  UserDashboard.books (userDash w') = UserDashboard.books (userDash w) ->
  AdminDashboard.books (adminDash w') = AdminDashboard.books (adminDash w) ->
  formLendingConsistent (AdminDashboard.bookForm (adminDash w'))
  = formLendingConsistent (AdminDashboard.bookForm (adminDash w)) ->
  Inv w -> Inv w'.
Proof.
  intros Hs Hu Ha Hf [I1 I2 I3 I4].
  constructor; [rewrite Hs | rewrite Hu | rewrite Ha | rewrite Hf]; assumption.
Qed.

Ltac same_books :=
  match goal with
  | I : Inv ?w |- Inv _ => apply (Inv_same w); [reflexivity .. | exact I]
  end.

Lemma Inv_reload (zone : Zone) (now : Z) (w : World) : Inv w -> Inv (reload zone now w).
Proof.
  intros [I1 _ _ _]. unfold reload, appMount.
  assert (Hstored : forallb lendingConsistent
                      (Db.getBooks (Db.init zone now (storage w))) = true).
  { unfold Db.init, Db.seedData, Db.getBooks in *.
    destruct (storage w) as [[users|] [books|] session]; simpl in *;
      solve [exact I1 | reflexivity]. }
  cbn [storage onStorage].
  destruct (Db.getSession (Db.init zone now (storage w)));
    constructor; solve [exact Hstored | reflexivity].
Qed.

Lemma Inv_handleLogin (role : UserRole) (w : World) :
  Inv w -> Inv (handleLogin role w).
Proof.
  intros I. unfold handleLogin.
  destruct (Db.findUser _ _) as [user|]; [|same_books].
  destruct (passwordIs user _); [|same_books].
  destruct (UserRole_eqb _ _); same_books.
Qed.

Lemma Inv_handleSignup (fault : SignupFault) (now : Z) (w : World) :
  Inv w -> Inv (handleSignup fault now w).
Proof.
  intros I. unfold handleSignup. cbv zeta.
  destruct (_ || _); [same_books|].
  destruct (JS.find _ _); [same_books|].
  destruct fault; same_books.
Qed.

Lemma Inv_loadData (w : World) :
  forallb lendingConsistent (Db.getBooks (storage w)) = true ->
  forallb lendingConsistent (UserDashboard.books (userDash w)) = true ->
  formLendingConsistent (AdminDashboard.bookForm (adminDash w)) = true ->
  Inv (loadData w).
Proof. intros Hs Hu Hf. constructor; assumption. Qed.

Lemma Inv_handleIssueBook (currentUser : User.t) (now : Z) (book : Book.t)
  (w : World) :
  Inv w -> Inv (handleIssueBook currentUser now book w).
Proof.
  intros I. unfold handleIssueBook.
  destruct (negb (Book.isIssued book)); [|exact I].
  destruct I as [I1 I2 I3 I4].
  assert (Hnew : forallb lendingConsistent
            (map (fun b => if (Book.id b =? Book.id book)%string
                           then markIssued (User.id currentUser) now b else b)
               (UserDashboard.books (userDash w))) = true).
  { apply forallb_map_same; [|exact I2]. intros b Hb.
    destruct (Book.id b =? Book.id book)%string; [reflexivity | exact Hb]. }
  constructor; assumption.
Qed.

Lemma Inv_handleReturnBook (bookId : string) (w : World) :
  Inv w -> Inv (handleReturnBook bookId w).
Proof.
  intros [I1 I2 I3 I4].
  assert (Hnew : forallb lendingConsistent
            (map (fun b => if (Book.id b =? bookId)%string
                           then markReturned b else b)
               (AdminDashboard.books (adminDash w))) = true).
  { apply forallb_map_same; [|exact I3]. intros b Hb.
    destruct (Book.id b =? bookId)%string; [reflexivity | exact Hb]. }
  constructor; assumption.
Qed.

Lemma Inv_handleDeleteBook (id : string) (w : World) :
  Inv w -> Inv (handleDeleteBook id w).
Proof.
  intros [I1 I2 I3 I4].
  pose proof (forallb_filter_same lendingConsistent
                (fun b => negb (Book.id b =? id)%string) _ I3) as Hnew.
  constructor; assumption.
Qed.

Lemma Inv_handleBookSubmit (now : Z) (w : World) :
  Inv w -> Inv (handleBookSubmit now w).
Proof.
  intros I. unfold handleBookSubmit. cbv zeta.
  destruct (_ || _); [same_books|].
  destruct I as [I1 I2 I3 I4].
  match goal with
  | |- Inv (notify _ _ (onAdminDash _ (loadData (onStorage (Db.saveBooks ?l) _)))) =>
      assert (Hnew : forallb lendingConsistent l = true)
  end.
  { destruct (_ && _).
    - apply forallb_map_same; [|exact I3]. intros b Hb.
      destruct (JS.strictEq _ _); [|exact Hb].
      now apply lendingConsistent_spreadOver.
    - now apply forallb_snoc. }
  constructor; assumption.
Qed.

Lemma Inv_handleUserSubmit (now : Z) (w : World) :
  Inv w -> Inv (handleUserSubmit now w).
Proof.
  intros I. unfold handleUserSubmit. cbv zeta.
  destruct (_ || _); [same_books|].
  destruct (_ && _); [same_books|].
  destruct I as [I1 I2 I3 I4]. constructor; assumption.
Qed.

(** Every event keeps the invariant. *)
Lemma Inv_fire (e : Event) (w : World) : Inv w -> Inv (fire e w).
Proof.
  intros I. destruct e; cbn [fire]; try solve [same_books].
  - now apply Inv_reload.
  - destruct reset; same_books.
  - now apply Inv_handleLogin.
  - now apply Inv_handleSignup.
  - destruct I as [I1 I2 I3 I4]. constructor; assumption.
  - destruct (nth_error _ i); [same_books | exact I].
  - destruct (App.currentUser (app w)); [|exact I].
    now apply Inv_handleIssueBook.
  - destruct I as [I1 I2 I3 I4]. constructor; solve [assumption | reflexivity].
  - destruct u; solve [exact I | same_books].
  - now apply Inv_handleDeleteBook.
  - destruct (nth_error _ i) as [book|] eqn:Hbook; [|exact I].
    destruct I as [I1 I2 I3 I4]. constructor; try assumption.
    apply formLendingConsistent_ofBook.
    eapply forallb_nth_error; eassumption.
  - now apply Inv_handleReturnBook.
  - destruct I as [I1 I2 I3 I4]. constructor; solve [assumption | reflexivity].
  - destruct fld; same_books.
  - unfold handleSmartFillStart. destruct (negb _); same_books.
  - destruct o as [[data|]|]; same_books.
  - now apply Inv_handleBookSubmit.
  - destruct userToEdit; same_books.
  - destruct I as [I1 I2 I3 I4]. constructor; assumption.
  - now apply Inv_handleUserSubmit.
Qed.

Lemma Inv_run (es : list Event) (w : World) : Inv w -> Inv (run es w).
Proof.
  unfold run. revert w. induction es as [|e es IH]; simpl; intros w I.
  - exact I.
  - apply IH. now apply Inv_fire.
Qed.

Lemma Inv_boot (zone : Zone) (t0 : Z) : Inv (boot zone t0).
Proof. constructor; reflexivity. Qed.

(** C1.  In every world the application reaches from the seeded first visit,
    by any events in any order (issue, return, creating, editing and
    deleting a book among them), every persisted book has [isIssued = true]
    exactly when [issuedToUserId] is not null, and [issuedToUserId] not null
    exactly when [issuedDate] is not null; the same holds for the books the
    dashboards hold in memory. *)
Theorem lending_invariant (zone : Zone) (t0 : Z) (es : list Event) :
  let w := run es (boot zone t0) in
  Forall LendingConsistent (Db.getBooks (storage w))
  /\ Forall LendingConsistent (UserDashboard.books (userDash w))
  /\ Forall LendingConsistent (AdminDashboard.books (adminDash w)).
Proof.
  intros w.
  destruct (Inv_run es (boot zone t0) (Inv_boot zone t0)) as [I1 I2 I3 _].
  fold w in I1, I2, I3.
  repeat split; apply Forall_forall; intros b Hb; apply lendingConsistent_iff.
  - rewrite forallb_forall in I1. now apply I1.
  - rewrite forallb_forall in I2. now apply I2.
  - rewrite forallb_forall in I3. now apply I3.
Qed.

Example lending_invariant_trace :
  let t0 := 1700000000000 in
  let gatsby := Book.mk "b1" "The Great Gatsby" "F. Scott Fitzgerald" "Classic"
                  (Some "https://picsum.photos/300/450?random=1") "A1"
                  false None None (Some "A novel set in the Jazz Age.") in
  let w := run [ TypeLibId "user"; TypePassword "123"; SubmitLogin USER;
                 UserMount; ClickBook 0; IssueBook (t0 + 5000) gatsby; Logout;
                 TypeLibId "admin"; TypePassword "123"; SubmitLogin ADMIN;
                 AdminMount; EditBook 0; ReturnBook "b1";
                 ChangeBookField FTitle "Gatsby"; SubmitBook (t0 + 9000);
                 ReturnBook "b3"; AddBook; ChangeBookField FTitle "Emma";
                 ChangeBookField FStandNumber "C2"; SubmitBook (t0 + 9500) ]
             (boot utc t0) in
  map (fun b => (Book.id b, Book.title b, lending b)) (Db.getBooks (storage w))
  = [ ("b1", "Gatsby", (true, Some "user1", Some (t0 + 5000)));
      ("b2", "1984", (false, None, None));
      ("b3", "Clean Code", (false, None, None));
      ("b1700000009500", "Emma", (false, None, None)) ].
Proof. reflexivity. Qed.

(** ** Login (C6) *)

Lemma notify_frame (m : string) (t : NoteType) (w : World) :
  storage (notify m t w) = storage w
  /\ userDash (notify m t w) = userDash w
  /\ adminDash (notify m t w) = adminDash w
  /\ App.view (app (notify m t w)) = App.view (app w)
  /\ App.currentUser (app (notify m t w)) = App.currentUser (app w)
  /\ App.libId (app (notify m t w)) = App.libId (app w)
  /\ App.password (app (notify m t w)) = App.password (app w)
  /\ App.name (app (notify m t w)) = App.name (app w)
  /\ App.notification (app (notify m t w)) = Some (mkNote m t).
Proof. repeat split. Qed.

Lemma notAuthorized_distinct (role : UserRole) :
  notAuthorized role <> invalidCredentials.
Proof. destruct role; discriminate. Qed.

Lemma UserRole_eqb_eq (a b : UserRole) : UserRole_eqb a b = true <-> a = b.
Proof. destruct a, b; simpl; split; congruence. Qed.

Lemma FirstWith_functional {A : Type} (p : A -> bool) (l : list A) (x y : A) :
  FirstWith (fun z => p z = true) l x -> FirstWith (fun z => p z = true) l y ->
  x = y.
Proof.
  intros Hx Hy. apply find_some_iff in Hx, Hy. congruence.
Qed.

Lemma FirstWith_iff {A : Type} (P Q : A -> Prop) (l : list A) (x : A) :
  (forall y, P y <-> Q y) -> FirstWith P l x -> FirstWith Q l x.
Proof.
  intros HPQ (l1 & l2 & Hl & Hx & Hl1). exists l1, l2.
  split; [exact Hl|]. split; [now apply HPQ|].
  eapply Forall_impl; [|exact Hl1]. intros y Hy HQ. apply Hy. now apply HPQ.
Qed.

Lemma passwordIs_iff (u : User.t) (p : string) :
  passwordIs u p = true <-> User.password u = Some p.
Proof.
  unfold passwordIs. destruct (User.password u) as [q|].
  - rewrite String.eqb_eq. split; congruence.
  - split; discriminate.
Qed.

(** [db.findUser] returns the first user with the library id. *)
Lemma findUser_first (libraryId : string) (s : Db.Store) (user : User.t) :
  Db.findUser libraryId s = Some user
  <-> FirstWith (fun u => User.libraryId u = libraryId) (Db.getUsers s) user.
Proof.
  unfold Db.findUser. rewrite find_some_iff. split; apply FirstWith_iff;
    intros u; [|symmetry]; apply String.eqb_eq.
Qed.

Lemma handleLogin_success_iff (role : UserRole) (w : World) :
  option_map type (App.notification (app (handleLogin role w))) = Some success
  <-> exists user,
        FirstWith (fun u => User.libraryId u = App.libId (app w))
          (Db.getUsers (storage w)) user
        /\ User.password user = Some (App.password (app w))
        /\ User.role user = role.
Proof.
  unfold handleLogin. split.
  - destruct (Db.findUser _ _) as [user|] eqn:Hf; [|discriminate].
    destruct (passwordIs user _) eqn:Hp; [|discriminate].
    destruct (UserRole_eqb _ _) eqn:Hr; [|discriminate].
    intros _. exists user. split; [now apply findUser_first|]. split.
    + now apply passwordIs_iff.
    + now apply UserRole_eqb_eq.
  - intros (user & Hu & Hp & Hr). apply findUser_first in Hu.
    apply passwordIs_iff in Hp. apply UserRole_eqb_eq in Hr.
    now rewrite Hu, Hp, Hr.
Qed.

Lemma NoDup_map_In_eq {A B : Type} (f : A -> B) (l : list A) (x y : A) :
  NoDup (map f l) -> In x l -> In y l -> f x = f y -> x = y.
Proof.
  induction l as [|a l IH]; simpl; intros Hnd Hx Hy Hf; [contradiction|].
  inversion Hnd as [|? ? Hnotin Hnd']; subst.
  destruct Hx as [<-|Hx], Hy as [<-|Hy]; auto.
  - exfalso. apply Hnotin. rewrite Hf. now apply in_map.
  - exfalso. apply Hnotin. rewrite <- Hf. now apply in_map.
Qed.

(** With library ids that are pairwise distinct, the first user with an id
    is the user with that id. *)
Lemma FirstWith_unique_id (users : list User.t) (libraryId : string) (u : User.t) :
  NoDup (map User.libraryId users) ->
  In u users -> User.libraryId u = libraryId ->
  FirstWith (fun v => User.libraryId v = libraryId) users u.
Proof.
  intros Hnd Hin Hid.
  destruct (find_is_some_of_In (fun v => (User.libraryId v =? libraryId)%string)
              users u Hin) as [v Hv]; [now apply String.eqb_eq|].
  apply find_some_iff in Hv.
  apply (FirstWith_iff _ (fun v => User.libraryId v = libraryId)) in Hv;
    [|intros y; apply String.eqb_eq].
  assert (v = u) as <-; [|exact Hv].
  destruct Hv as (l1 & l2 & Hl & Hpv & _).
  apply (NoDup_map_In_eq User.libraryId users); auto; [|congruence].
  rewrite Hl. apply in_or_app. right. now left.
Qed.

(** While library ids are pairwise distinct, login succeeds exactly when a
    user with the identifier, the secret and the role of the portal exists. *)
Lemma handleLogin_unique_ids (role : UserRole) (w : World) :
  NoDup (map User.libraryId (Db.getUsers (storage w))) ->
  (option_map type (App.notification (app (handleLogin role w))) = Some success
   <-> exists user,
         In user (Db.getUsers (storage w))
         /\ User.libraryId user = App.libId (app w)
         /\ User.password user = Some (App.password (app w))
         /\ User.role user = role).
Proof.
  intros Hnd. rewrite handleLogin_success_iff. split.
  - intros (user & (l1 & l2 & Hl & Hid & _) & Hp & Hr). exists user.
    repeat split; auto. rewrite Hl. apply in_or_app. right. now left.
  - intros (user & Hin & Hid & Hp & Hr). exists user.
    split; [now apply FirstWith_unique_id | auto].
Qed.

(** C6 as stated fails.  The admin gives John Doe the library id "admin" (an
    edit does not look for the id among the other users).  A user with id
    "admin", password "123" and the role of the student portal now exists,
    and the student portal answers "admin"/"123" with the role-mismatch
    error: the lookup stops at the librarian, who comes first. *)
Lemma login_sees_first_match_only :
  let t0 := 1700000000000 in
  let john := User.mk "user1" "user" (Some "123") "John Doe" USER in
  let w := run [ TypeLibId "admin"; TypePassword "123"; SubmitLogin ADMIN;
                 AdminMount; OpenUserModal USER (Some john);
                 ChangeUserField FLibraryId "admin"; SubmitUser (t0 + 1000);
                 Logout; Navigate false LOGIN_USER;
                 TypeLibId "admin"; TypePassword "123" ]
             (boot utc t0) in
  (exists u, In u (Db.getUsers (storage w))
             /\ User.libraryId u = App.libId (app w)
             /\ User.password u = Some (App.password (app w))
             /\ User.role u = USER)
  /\ App.notification (app (handleLogin USER w))
     = Some (mkNote (notAuthorized USER) error)
  /\ Db.getSession (storage (handleLogin USER w)) = None
  /\ App.currentUser (app (handleLogin USER w)) = None.
Proof.
  intros t0 john w. split.
  - exists (User.mk "user1" "admin" (Some "123") "John Doe" USER).
    split; [right; left; reflexivity | repeat split].
  - repeat split.
Qed.

(** C6, amended.  Let [user] be the first user of the persisted list, in
    list order, whose library id is the identifier typed.  Login succeeds
    exactly when there is such a user, the user's password is the secret
    typed and the user's role is the role of the portal; [user] then becomes
    the session and the current user, and the dashboard is shown.  When there
    is no such user, or the password differs, the world is the one before
    with the credential error as notification.  When the password is right
    and the role differs, it is the one before with the role-mismatch error,
    a different message.  A notification changes neither local storage nor
    the view, the current user or the fields typed. *)
Theorem handleLogin_spec (role : UserRole) (w : World) :
  let users := Db.getUsers (storage w) in
  let typed := fun u => User.libraryId u = App.libId (app w) in
  let w' := handleLogin role w in
  (option_map type (App.notification (app w')) = Some success
   <-> exists user, FirstWith typed users user
                    /\ User.password user = Some (App.password (app w))
                    /\ User.role user = role)
  /\ (forall user,
        FirstWith typed users user ->
        User.password user = Some (App.password (app w)) ->
        User.role user = role ->
        Db.getSession (storage w') = Some user
        /\ App.currentUser (app w') = Some user
        /\ App.view (app w') = DASHBOARD
        /\ Db.USERS (storage w') = Db.USERS (storage w)
        /\ Db.BOOKS (storage w') = Db.BOOKS (storage w))
  /\ (forall user,
        FirstWith typed users user ->
        User.password user = Some (App.password (app w)) ->
        User.role user <> role ->
        w' = notify (notAuthorized role) error w)
  /\ (forall user,
        FirstWith typed users user ->
        User.password user <> Some (App.password (app w)) ->
        w' = notify invalidCredentials error w)
  /\ ((forall u, In u users -> User.libraryId u <> App.libId (app w)) ->
      w' = notify invalidCredentials error w)
  /\ notAuthorized role <> invalidCredentials
  /\ (forall m, storage (notify m error w) = storage w
                /\ App.view (app (notify m error w)) = App.view (app w)
                /\ App.currentUser (app (notify m error w)) = App.currentUser (app w)
                /\ App.libId (app (notify m error w)) = App.libId (app w)
                /\ App.password (app (notify m error w)) = App.password (app w)).
Proof.
  intros users typed w'.
  assert (Hfind : forall user,
             FirstWith typed users user ->
             Db.findUser (App.libId (app w)) (storage w) = Some user).
  { intros user Hu. now apply findUser_first. }
  assert (Hok : forall user,
             FirstWith typed users user ->
             User.password user = Some (App.password (app w)) ->
             User.role user = role ->
             w' = notify ("Welcome back, " ++ User.name user) success
                    (resetForm (setState DASHBOARD (Some user)
                                  (onStorage (Db.setSession user) w)))).
  { intros user Hu Hp Hr. subst w'. unfold handleLogin.
    rewrite (Hfind _ Hu). apply passwordIs_iff in Hp.
    apply UserRole_eqb_eq in Hr. now rewrite Hp, Hr. }
  split; [|split; [|split; [|split; [|split; [|split]]]]].
  - apply handleLogin_success_iff.
  - intros user Hu Hp Hr. rewrite (Hok user Hu Hp Hr). repeat split.
  - intros user Hu Hp Hr. subst w'. unfold handleLogin. rewrite (Hfind _ Hu).
    apply passwordIs_iff in Hp. rewrite Hp.
    destruct (UserRole_eqb _ _) eqn:Hr'; [|reflexivity].
    apply UserRole_eqb_eq in Hr'. contradiction.
  - intros user Hu Hp. subst w'. unfold handleLogin. rewrite (Hfind _ Hu).
    destruct (passwordIs user _) eqn:Hp'; [|reflexivity].
    apply passwordIs_iff in Hp'. contradiction.
  - intros Hnone. subst w'. unfold handleLogin, Db.findUser.
    replace (JS.find _ _) with (@None User.t); [reflexivity|].
    symmetry. apply find_none_iff. intros u Hu. apply String.eqb_neq.
    now apply Hnone.
  - apply notAuthorized_distinct.
  - intros m. repeat split.
Qed.

Lemma handleLogin_spec_witness :
  let w := setPassword "123" (setLibId "user" (boot utc 1700000000000)) in
  let john := User.mk "user1" "user" (Some "123") "John Doe" USER in
  FirstWith (fun u => User.libraryId u = "user") (Db.getUsers (storage w)) john
  /\ Db.getSession (storage (handleLogin USER w)) = Some john
  /\ App.view (app (handleLogin USER w)) = DASHBOARD
  /\ handleLogin ADMIN w = notify (notAuthorized ADMIN) error w.
Proof.
  intros w john.
  assert (Hfirst : FirstWith (fun u => User.libraryId u = "user")
                     (Db.getUsers (storage w)) john).
  { exists [User.mk "admin1" "admin" (Some "123") "Head Librarian" ADMIN], [].
    split; [reflexivity|]. split; [reflexivity|].
    constructor; [discriminate | constructor]. }
  split; [exact Hfirst|].
  destruct (handleLogin_spec USER w) as (_ & Hok & _).
  destruct (Hok john Hfirst eq_refl eq_refl) as (Hsession & _ & Hview & _).
  split; [exact Hsession|]. split; [exact Hview|].
  destruct (handleLogin_spec ADMIN w) as (_ & _ & Hrole & _).
  apply (Hrole john Hfirst eq_refl). discriminate.
Defined.

(** ** Creating an account with a library id that is taken (C5) *)

(** C5 as stated fails on the kind of error: a signup that reuses the id
    "admin" and leaves the name blank is turned down for the blank field,
    before the id is looked up; so is a form of the admin that has no
    password. *)
Lemma blank_field_reported_before_duplicate :
  let w0 := boot utc 1700000000000 in
  let w := setPassword "secret" (setLibId "admin" (setName "  "
             (navigate true SIGNUP w0))) in
  let wa := changeUserField FName "Eve" (changeUserField FLibraryId "admin"
              (openUserModal USER None (adminDashboardMount w0))) in
  (exists u, In u (Db.getUsers (storage w))
             /\ User.libraryId u = App.libId (app w))
  /\ App.notification (app (handleSignup NoFault 1700000001000 w))
     = Some (mkNote fillInAllFields error)
  /\ fillInAllFields <> libraryIdExists
  /\ (exists u, In u (AdminDashboard.users (adminDash wa))
                /\ Some (User.libraryId u)
                   = UserForm.libraryId (AdminDashboard.userForm (adminDash wa)))
  /\ AdminDashboard.isUserEditMode (adminDash wa) = false
  /\ App.notification (app (handleUserSubmit 1700000001000 wa))
     = Some (mkNote allFieldsRequired error)
  /\ allFieldsRequired <> libraryIdTaken.
Proof.
  intros w0 w wa. repeat split; try discriminate.
  - eexists. split; [left; reflexivity | reflexivity].
  - eexists. split; [left; reflexivity | reflexivity].
Qed.

(** C5, amended.  Signup: when a persisted user, of either role, has the
    library id typed, local storage stays as it is; and when name, id and
    password are all filled in (not blank after trimming), the world is the
    one before with the duplicate-identifier error as notification.  Admin
    form in create mode: when a user of the dashboard's list (the persisted
    list as last loaded) has the library id of the form, local storage stays
    as it is; and when id, password and name are all non-empty, the world is
    the one before with the duplicate-identifier error as notification. *)
Theorem duplicate_libraryId_rejected (fault : SignupFault) (now : Z) (w : World) (u : User.t) :
  (In u (Db.getUsers (storage w)) ->
   User.libraryId u = App.libId (app w) ->
   storage (handleSignup fault now w) = storage w
   /\ (JS.trim (App.name (app w)) <> ""
       /\ JS.trim (App.libId (app w)) <> ""
       /\ JS.trim (App.password (app w)) <> "" ->
       handleSignup fault now w = notify libraryIdExists error w))
  /\ (In u (AdminDashboard.users (adminDash w)) ->
      AdminDashboard.isUserEditMode (adminDash w) = false ->
      UserForm.libraryId (AdminDashboard.userForm (adminDash w))
      = Some (User.libraryId u) ->
      storage (handleUserSubmit now w) = storage w
      /\ (JS.truthy (UserForm.libraryId (AdminDashboard.userForm (adminDash w))) = true
          /\ JS.truthy (UserForm.password (AdminDashboard.userForm (adminDash w))) = true
          /\ JS.truthy (UserForm.name (AdminDashboard.userForm (adminDash w))) = true ->
          handleUserSubmit now w = notify libraryIdTaken error w)).
Proof.
  split.
  - intros Hin Hid.
    destruct (find_is_some_of_In
                (fun v => (User.libraryId v =? App.libId (app w))%string)
                _ u Hin) as [v Hv]; [now apply String.eqb_eq|].
    unfold handleSignup. cbv zeta. rewrite Hv. split.
    + destruct (_ || _); reflexivity.
    + intros (Hn & Hl & Hp). unfold JS.truthyStr.
      apply String.eqb_neq in Hn, Hl, Hp. now rewrite Hn, Hl, Hp.
  - intros Hin Hmode Hid.
    assert (Hdup : JS.some
              (fun v => JS.strictEq (User.libraryId v)
                          (UserForm.libraryId (AdminDashboard.userForm (adminDash w))))
              (AdminDashboard.users (adminDash w)) = true).
    { apply some_true_of_In with (x := u); [exact Hin|].
      rewrite Hid. simpl. apply String.eqb_refl. }
    unfold handleUserSubmit. cbv zeta. rewrite Hmode, Hdup. cbn [negb andb]. split.
    + destruct (_ || _); reflexivity.
    + intros (Hl & Hp & Hn). now rewrite Hl, Hp, Hn.
Qed.

Lemma duplicate_libraryId_rejected_witness :
  let w0 := boot utc 1700000000000 in
  let librarian := User.mk "admin1" "admin" (Some "123") "Head Librarian" ADMIN in
  let w := setPassword "secret" (setLibId "admin" (setName "Eve"
             (navigate true SIGNUP w0))) in
  let wa := changeUserField FPassword "secret" (changeUserField FName "Eve"
              (changeUserField FLibraryId "admin"
                 (openUserModal USER None (adminDashboardMount w0)))) in
  In librarian (Db.getUsers (storage w))
  /\ handleSignup NoFault 1700000001000 w = notify libraryIdExists error w
  /\ Db.getUsers (storage (handleSignup NoFault 1700000001000 w)) = Db.initialUsers
  /\ In librarian (AdminDashboard.users (adminDash wa))
  /\ handleUserSubmit 1700000001000 wa = notify libraryIdTaken error wa
  /\ Db.getUsers (storage (handleUserSubmit 1700000001000 wa)) = Db.initialUsers.
Proof.
  intros w0 librarian w wa.
  assert (Hin : In librarian Db.initialUsers) by (left; reflexivity).
  destruct (duplicate_libraryId_rejected NoFault 1700000001000 w librarian)
    as [Hsignup _].
  destruct (Hsignup Hin eq_refl) as [Hst Herr].
  destruct (duplicate_libraryId_rejected NoFault 1700000001000 wa librarian)
    as [_ Hadmin].
  destruct (Hadmin Hin eq_refl eq_refl) as [Hsta Herra].
  split; [exact Hin|]. split.
  { apply Herr. repeat split; discriminate. }
  split; [now rewrite Hst|]. split; [exact Hin|]. split.
  { apply Herra. repeat split. }
  now rewrite Hsta.
Defined.

(** * Further properties of the sources *)

(** ** Seeding and page loads (services/db.ts, App.tsx) *)

(** X1.  [seedData] fills in exactly the entries that are missing: users and
    books that are present are kept as they are, a missing entry gets the
    initial list, the session is not touched; seeding a second time, at any
    later clock value and in any time zone, changes nothing.  Accordingly
    loading the page twice gives the world of loading it once. *)
Theorem seedData_fills_missing_only (zone zone' : Zone) (now now' : Z)
  (s : Db.Store) (w : World) :
  Db.USERS (Db.seedData zone now s)
  = Some (match Db.USERS s with Some l => l | None => Db.initialUsers end)
  /\ Db.BOOKS (Db.seedData zone now s)
     = Some (match Db.BOOKS s with
             | Some l => l
             | None => Db.initialBooks zone now
             end)
  /\ Db.SESSION (Db.seedData zone now s) = Db.SESSION s
  /\ Db.seedData zone' now' (Db.seedData zone now s) = Db.seedData zone now s
  /\ reload zone' now' (reload zone now w) = reload zone now w.
Proof.
  assert (Hidem : forall t t' s0,
             Db.seedData zone' t' (Db.seedData zone t s0)
             = Db.seedData zone t s0).
  { intros t t' [[us|] [bs|] ss]; reflexivity. }
  repeat split.
  - destruct s as [[us|] [bs|] ss]; reflexivity.
  - destruct s as [[us|] [bs|] ss]; reflexivity.
  - destruct s as [[us|] [bs|] ss]; reflexivity.
  - apply Hidem.
  - destruct w as [[[us|] [bs|] [ss|]] a ud ad]; reflexivity.
Qed.

(** ** Sessions (App.tsx) *)

Lemma handleLogin_success_world (role : UserRole) (w : World) :
  option_map type (App.notification (app (handleLogin role w))) = Some success ->
  exists user,
    Db.findUser (App.libId (app w)) (storage w) = Some user
    /\ handleLogin role w
       = notify ("Welcome back, " ++ User.name user) success
           (resetForm (setState DASHBOARD (Some user)
                         (onStorage (Db.setSession user) w))).
Proof.
  unfold handleLogin.
  destruct (Db.findUser _ _) as [user|]; [|discriminate].
  destruct (passwordIs user _); [|discriminate].
  destruct (UserRole_eqb _ _); [|discriminate].
  intros _. now exists user.
Qed.

(** X2.  A successful login survives a page load: the dashboard is shown
    again for the user the lookup returned, with the login form empty.  After
    [handleLogout], whatever the world was, a page load shows the home view
    with nobody logged in and no session stored, while users and books are
    as they were. *)
Theorem session_survives_reload (zone : Zone) (role : UserRole) (now : Z) (w : World) :
  (option_map type (App.notification (app (handleLogin role w))) = Some success ->
   let w' := reload zone now (handleLogin role w) in
   App.view (app w') = DASHBOARD
   /\ App.currentUser (app w') = Db.findUser (App.libId (app w)) (storage w)
   /\ Db.getSession (storage w') = Db.findUser (App.libId (app w)) (storage w)
   /\ App.libId (app w') = "" /\ App.password (app w') = "")
  /\ (let w' := reload zone now (handleLogout w) in
      App.view (app w') = HOME
      /\ App.currentUser (app w') = None
      /\ Db.getSession (storage w') = None
      /\ Db.getUsers (storage w') = Db.getUsers (storage (reload zone now w))
      /\ Db.getBooks (storage w') = Db.getBooks (storage (reload zone now w))).
Proof.
  split.
  - intros Hok. destruct (handleLogin_success_world role w Hok) as (user & Hf & ->).
    rewrite Hf. destruct w as [[[us|] [bs|] ss] a ud ad];
      repeat split; reflexivity.
  - destruct w as [[[us|] [bs|] [ss|]] a ud ad]; repeat split; reflexivity.
Qed.

Lemma session_survives_reload_witness :
  let w := setPassword "123" (setLibId "admin" (boot utc 1700000000000)) in
  option_map type (App.notification (app (handleLogin ADMIN w))) = Some success
  /\ App.view (app (reload utc 1700000100000 (handleLogin ADMIN w))) = DASHBOARD
  /\ option_map User.name
       (App.currentUser (app (reload utc 1700000100000 (handleLogin ADMIN w))))
     = Some "Head Librarian".
Proof.
  intros w. split; [reflexivity|].
  destruct (session_survives_reload utc ADMIN 1700000100000 w) as [Hin _].
  destruct (Hin eq_refl) as (Hview & Huser & _).
  split; [exact Hview|]. rewrite Huser. reflexivity.
Defined.

(** ** Accounts (App.tsx, components/AdminDashboard.tsx) *)

Lemma find_app_none {A : Type} (p : A -> bool) (l l' : list A) :
  JS.find p l = None -> JS.find p (l ++ l') = JS.find p l'.
Proof.
  induction l as [|x l IH]; simpl; [reflexivity|].
  destruct (p x); [discriminate | exact IH].
Qed.

Lemma find_libraryId_none (libraryId : string) (users : list User.t) :
  (forall u, In u users -> User.libraryId u <> libraryId) ->
  JS.find (fun u => (User.libraryId u =? libraryId)%string) users = None.
Proof.
  intros Hfree. apply find_none_iff. intros u Hu.
  apply String.eqb_neq. now apply Hfree.
Qed.

Lemma handleSignup_writes (fault : SignupFault) (now : Z) (w : World) :
  JS.trim (App.name (app w)) <> "" ->
  JS.trim (App.libId (app w)) <> "" ->
  JS.trim (App.password (app w)) <> "" ->
  (forall u, In u (Db.getUsers (storage w)) ->
             User.libraryId u <> App.libId (app w)) ->
  let newUser :=
    User.mk ("u" ++ JS.numeral now) (App.libId (app w))
            (Some (App.password (app w))) (App.name (app w))
            (if View_eqb (App.view (app w)) SIGNUP_ADMIN then ADMIN else USER) in
  let saved := onStorage (Db.saveUsers (Db.getUsers (storage w) ++ [newUser])) w in
  handleSignup fault now w
  = match fault with
    | SaveUsersThrows => notify signupFailed error w
    | SetSessionThrows => notify signupFailed error saved
    | NoFault =>
        notify ("Welcome, " ++ App.name (app w) ++ "! Your "
                ++ (if View_eqb (App.view (app w)) SIGNUP_ADMIN
                    then "Librarian" else "Student")
                ++ " account is ready.") success
          (resetForm (setState DASHBOARD (Some newUser)
             (onStorage (Db.setSession newUser) saved)))
    end.
Proof.
  intros Hn Hl Hp Hfree newUser saved. unfold handleSignup. cbv zeta.
  apply String.eqb_neq in Hn, Hl, Hp. unfold JS.truthyStr.
  rewrite Hn, Hl, Hp. cbn [negb orb].
  rewrite (find_libraryId_none _ _ Hfree).
  destruct fault; destruct (View_eqb (App.view (app w)) SIGNUP_ADMIN);
    reflexivity.
Qed.

(** X3.  A signup with name, identifier and secret that are not blank and an
    identifier no persisted user has, whose two writes to local storage
    succeed, appends one account to the persisted users, with the values
    exactly as typed (not trimmed) and the role of the signup view (ADMIN on
    the staff registration view, USER otherwise), makes it the session and
    shows the dashboard; the books are not touched.  After a logout, typing
    the same identifier and secret on the portal of that role logs the same
    account in again; on the other portal the answer is the role-mismatch
    error.  When the write of the users throws, nothing is saved and the
    failure is reported; when the write of the session throws, the account
    is saved all the same, but nobody is logged in and the signup view stays,
    with the failure reported. *)
Theorem signup_then_login (now : Z) (w : World) :
  JS.trim (App.name (app w)) <> "" ->
  JS.trim (App.libId (app w)) <> "" ->
  JS.trim (App.password (app w)) <> "" ->
  (forall u, In u (Db.getUsers (storage w)) ->
             User.libraryId u <> App.libId (app w)) ->
  let role := if View_eqb (App.view (app w)) SIGNUP_ADMIN then ADMIN else USER in
  let newUser :=
    User.mk ("u" ++ JS.numeral now) (App.libId (app w))
            (Some (App.password (app w))) (App.name (app w)) role in
  let w1 := handleSignup NoFault now w in
  let again := fun portal =>
    handleLogin portal
      (setPassword (App.password (app w))
         (setLibId (App.libId (app w)) (handleLogout w1))) in
  (Db.getUsers (storage w1) = Db.getUsers (storage w) ++ [newUser]
   /\ Db.BOOKS (storage w1) = Db.BOOKS (storage w)
   /\ Db.getSession (storage w1) = Some newUser
   /\ App.currentUser (app w1) = Some newUser
   /\ App.view (app w1) = DASHBOARD)
  /\ (Db.getSession (storage (again role)) = Some newUser
      /\ App.currentUser (app (again role)) = Some newUser
      /\ App.view (app (again role)) = DASHBOARD)
  /\ (forall portal, portal <> role ->
        App.notification (app (again portal))
        = Some (mkNote (notAuthorized portal) error)
        /\ Db.getSession (storage (again portal)) = None)
  /\ handleSignup SaveUsersThrows now w = notify signupFailed error w
  /\ handleSignup SetSessionThrows now w
     = notify signupFailed error
         (onStorage (Db.saveUsers (Db.getUsers (storage w) ++ [newUser])) w).
Proof.
  intros Hn Hl Hp Hfree role newUser w1 again.
  pose proof (handleSignup_writes NoFault now w Hn Hl Hp Hfree) as Hw1.
  cbv zeta in Hw1. fold role in Hw1. fold newUser in Hw1. fold w1 in Hw1.
  assert (Hfind : forall portal,
            again portal
            = (let w2 := setPassword (App.password (app w))
                           (setLibId (App.libId (app w)) (handleLogout w1)) in
               if UserRole_eqb role portal
               then notify ("Welcome back, " ++ App.name (app w)) success
                      (resetForm (setState DASHBOARD (Some newUser)
                                    (onStorage (Db.setSession newUser) w2)))
               else notify (notAuthorized portal) error w2)).
  { intros portal. unfold again, handleLogin. rewrite Hw1.
    cbn [storage app handleLogout notify resetForm setState onStorage onApp
         setPassword setLibId App.libId App.password Db.clearSession
         Db.setSession Db.saveUsers Db.USERS Db.findUser Db.getUsers].
    assert (Hfu : Db.findUser (App.libId (app w))
                    (Db.clearSession
                       (Db.setSession newUser
                          (Db.saveUsers (Db.getUsers (storage w) ++ [newUser])
                             (storage w))))
                  = Some newUser).
    { unfold Db.findUser.
      change (Db.getUsers _) with (Db.getUsers (storage w) ++ [newUser]) at 1.
      rewrite find_app_none by (now apply find_libraryId_none).
      simpl. now rewrite String.eqb_refl. }
    rewrite Hfu. unfold passwordIs. subst newUser.
    cbn [User.password User.role User.name]. rewrite String.eqb_refl.
    reflexivity. }
  split; [|split; [|split; [|split]]].
  - rewrite Hw1. repeat split.
  - rewrite (Hfind role). cbv zeta.
    replace (UserRole_eqb role role) with true
      by (symmetry; now apply UserRole_eqb_eq).
    repeat split.
  - intros portal Hne. rewrite (Hfind portal). cbv zeta.
    destruct (UserRole_eqb role portal) eqn:Hrole.
    + apply UserRole_eqb_eq in Hrole. congruence.
    + split; [reflexivity|]. rewrite Hw1. reflexivity.
  - exact (handleSignup_writes SaveUsersThrows now w Hn Hl Hp Hfree).
  - exact (handleSignup_writes SetSessionThrows now w Hn Hl Hp Hfree).
Qed.

Lemma signup_then_login_witness :
  let w := setPassword "s3cret" (setLibId " eve " (setName "Eve"
             (navigate true SIGNUP_ADMIN (boot utc 1700000000000)))) in
  let w1 := handleSignup NoFault 1700000050000 w in
  let w2 := handleSignup SetSessionThrows 1700000050000 w in
  map User.libraryId (Db.getUsers (storage w1)) = ["admin"; "user"; " eve "]
  /\ option_map User.role (App.currentUser (app w1)) = Some ADMIN
  /\ option_map User.id
       (Db.getSession
          (storage (handleLogin ADMIN
                      (setPassword "s3cret" (setLibId " eve " (handleLogout w1))))))
     = Some "u1700000050000"
  /\ map User.libraryId (Db.getUsers (storage w2)) = ["admin"; "user"; " eve "]
  /\ Db.getSession (storage w2) = None
  /\ App.view (app w2) = SIGNUP_ADMIN
  /\ App.notification (app w2) = Some (mkNote signupFailed error).
Proof.
  intros w w1 w2.
  assert (Hfree : forall u, In u (Db.getUsers (storage w)) ->
                            User.libraryId u <> App.libId (app w)).
  { intros u [<-|[<-|[]]]; discriminate. }
  destruct (signup_then_login 1700000050000 w
              ltac:(discriminate) ltac:(discriminate) ltac:(discriminate) Hfree)
    as ((Husers & _ & _ & Hcur & _) & (Hsession & _) & _ & _ & Hthrow).
  fold w1 in Husers, Hcur. fold w2 in Hthrow.
  split; [now rewrite Husers|]. split; [now rewrite Hcur|].
  split; [exact (f_equal (option_map User.id) Hsession)|].
  rewrite Hthrow. repeat split.
Defined.

Lemma NoDup_snoc {A : Type} (l : list A) (x : A) :
  NoDup l -> ~ In x l -> NoDup (l ++ [x]).
Proof.
  intros Hl Hx. induction Hl as [|y l Hy Hl IH]; simpl.
  - constructor; [intros [] | constructor].
  - constructor.
    + rewrite in_app_iff. intros [Hin|[->|[]]]; [contradiction|].
      apply Hx. now left.
    + apply IH. intros Hin. apply Hx. now right.
Qed.

Lemma some_false_not_In (users : list User.t) (libraryId : string) :
  JS.some (fun u => JS.strictEq (User.libraryId u) (Some libraryId)) users = false ->
  ~ In libraryId (map User.libraryId users).
Proof.
  intros Hsome Hin. apply in_map_iff in Hin as (u & Hid & Hu).
  assert (JS.some (fun v => JS.strictEq (User.libraryId v) (Some libraryId)) users
          = true); [|congruence].
  apply some_true_of_In with (x := u); [exact Hu|].
  simpl. now apply String.eqb_eq.
Qed.

(** X4.  The two ways of creating an account never produce a second user
    with a library id that is in use: if the library ids of the persisted
    users are pairwise distinct, they still are after [handleSignup], and
    after [handleUserSubmit] in create mode on a dashboard that holds the
    persisted list. *)
Theorem creation_keeps_libraryIds_distinct (fault : SignupFault) (now : Z)
  (w : World) :
  NoDup (map User.libraryId (Db.getUsers (storage w))) ->
  NoDup (map User.libraryId (Db.getUsers (storage (handleSignup fault now w))))
  /\ (AdminDashboard.isUserEditMode (adminDash w) = false ->
      AdminDashboard.users (adminDash w) = Db.getUsers (storage w) ->
      NoDup (map User.libraryId (Db.getUsers (storage (handleUserSubmit now w))))).
Proof.
  intros Hnd. split.
  - unfold handleSignup. cbv zeta.
    destruct (_ || _); [exact Hnd|].
    destruct (JS.find _ _) eqn:Hfind; [exact Hnd|].
    destruct fault; [|exact Hnd|];
      (cbn; rewrite map_app; apply NoDup_snoc; [exact Hnd|]);
      simpl; intros Hin; apply in_map_iff in Hin as (u & Hid & Hu);
      rewrite find_none_iff in Hfind; specialize (Hfind u Hu);
      apply String.eqb_neq in Hfind; contradiction.
  - intros Hmode Hsame. unfold handleUserSubmit. cbv zeta.
    rewrite Hmode, Hsame. cbn [negb andb].
    destruct (UserForm.libraryId (AdminDashboard.userForm (adminDash w)))
      as [libraryId|]; [|exact Hnd].
    destruct (_ || _); [exact Hnd|].
    destruct (JS.some _ _) eqn:Hsome; [exact Hnd|].
    cbn. rewrite map_app. apply NoDup_snoc; [exact Hnd|].
    now apply some_false_not_In.
Qed.

Lemma creation_keeps_libraryIds_distinct_witness :
  let w0 := adminDashboardMount (boot utc 1700000000000) in
  let w := changeUserField FPassword "pw" (changeUserField FName "Eve"
             (changeUserField FLibraryId "eve" (openUserModal ADMIN None w0))) in
  NoDup (map User.libraryId (Db.getUsers (storage w)))
  /\ map User.libraryId (Db.getUsers (storage (handleUserSubmit 1700000050000 w)))
     = ["admin"; "user"; "eve"]
  /\ NoDup (map User.libraryId
              (Db.getUsers (storage (handleUserSubmit 1700000050000 w)))).
Proof.
  intros w0 w.
  assert (Hnd : NoDup (map User.libraryId (Db.getUsers (storage w)))).
  { repeat constructor; simpl; intuition discriminate. }
  split; [exact Hnd|]. split; [reflexivity|].
  destruct (creation_keeps_libraryIds_distinct NoFault 1700000050000 w Hnd) as [_ Hadmin].
  exact (Hadmin eq_refl eq_refl).
Defined.

(** X5.  Deleting an account does not end its session.  [handleDeleteUser]
    leaves the stored session and the current user as they are, so after a
    page load the dashboard is shown again for the user of the session, also
    when that user is the one just deleted; but when every user of the
    dashboard's list that had the identifier typed into the login form is
    among the deleted, a login with it gets the credential error. *)
Theorem delete_keeps_session (zone : Zone) (userId : string) (now : Z) (role : UserRole)
  (w : World) :
  let w' := handleDeleteUser userId w in
  Db.getSession (storage w') = Db.getSession (storage w)
  /\ App.currentUser (app w') = App.currentUser (app w)
  /\ App.view (app w') = App.view (app w)
  /\ (forall user,
        Db.getSession (storage w) = Some user ->
        App.view (app (reload zone now w')) = DASHBOARD
        /\ App.currentUser (app (reload zone now w')) = Some user)
  /\ ((forall u, In u (AdminDashboard.users (adminDash w)) ->
                 User.libraryId u = App.libId (app w) -> User.id u = userId) ->
      handleLogin role w' = notify invalidCredentials error w').
Proof.
  intros w'. subst w'. repeat split.
  - destruct w as [[us [bs|] ss] a ud ad]; simpl in *; subst ss; reflexivity.
  - destruct w as [[us [bs|] ss] a ud ad]; simpl in *; subst ss; reflexivity.
  - intros Hgone. unfold handleLogin, Db.findUser.
    replace (JS.find _ _) with (@None User.t); [reflexivity|].
    symmetry. apply find_none_iff. intros u Hu. cbn in Hu.
    apply filter_In in Hu as [Hu Hid]. apply String.eqb_neq. intros Hlib.
    apply negb_true_iff, String.eqb_neq in Hid. apply Hid.
    now apply Hgone.
Qed.

Lemma delete_keeps_session_witness :
  let w0 := adminDashboardMount
              (handleLogin ADMIN
                 (setPassword "123" (setLibId "admin" (boot utc 1700000000000)))) in
  let w' := setPassword "123" (setLibId "admin" (handleDeleteUser "admin1" w0)) in
  map User.id (Db.getUsers (storage w')) = ["user1"]
  /\ option_map User.id (App.currentUser (app (reload utc 1700000100000 w')))
     = Some "admin1"
  /\ App.view (app (reload utc 1700000100000 w')) = DASHBOARD
  /\ App.notification (app (handleLogin ADMIN w'))
     = Some (mkNote invalidCredentials error).
Proof.
  intros w0 w'. split; [reflexivity|].
  destruct (delete_keeps_session utc "admin1" 1700000100000 ADMIN w0)
    as (_ & _ & _ & Hreload & _).
  destruct (Hreload _ eq_refl) as (Hview & Huser).
  split; [exact (f_equal (option_map User.id) Huser)|].
  split; [exact Hview|]. reflexivity.
Defined.

Lemma EditingUser_run (user : User.t) (w0 : World) (es : list Event) :
  forallb isUserFormEdit es = true ->
  forall w, EditingUser user w0 w -> EditingUser user w0 (run es w).
Proof.
  unfold run. induction es as [|e es IH]; simpl; intros Hes w Hw; [exact Hw|].
  apply andb_true_iff in Hes as [He Hes]. apply IH; [exact Hes|].
  destruct e; try discriminate He. cbn [fire]. destruct fld; exact Hw.
Qed.

(** X6.  The admin opens the account form on [user] (whose id is not the
    empty string), types into its fields and submits.  If identifier, secret
    or name was emptied nothing is saved.  Otherwise the saved list has the
    users at their positions with their ids; a user with another id is
    unchanged; a user with the id of [user] has the identifier, secret and
    name of the form and the role [user] had, since the form has no input for
    the role.  Books and session are untouched, and the identifier is not
    compared with those of the other users. *)
Theorem edit_user_keeps_id_and_role (w : World) (role0 : UserRole)
  (user : User.t) (edits : list Event) (now : Z) :
  User.id user <> "" ->
  forallb isUserFormEdit edits = true ->
  let w1 := run edits (openUserModal role0 (Some user) w) in
  let w' := handleUserSubmit now w1 in
  let form := AdminDashboard.userForm (adminDash w1) in
  if JS.truthy (UserForm.libraryId form) && JS.truthy (UserForm.password form)
     && JS.truthy (UserForm.name form)
  then
    (forall i u,
       nth_error (AdminDashboard.users (adminDash w)) i = Some u ->
       exists u',
         nth_error (Db.getUsers (storage w')) i = Some u'
         /\ User.id u' = User.id u
         /\ (User.id u <> User.id user -> u' = u)
         /\ (User.id u = User.id user ->
             User.role u' = User.role user
             /\ Some (User.libraryId u') = UserForm.libraryId form
             /\ User.password u' = UserForm.password form
             /\ Some (User.name u') = UserForm.name form))
    /\ List.length (Db.getUsers (storage w'))
       = List.length (AdminDashboard.users (adminDash w))
    /\ Db.BOOKS (storage w') = Db.BOOKS (storage w)
    /\ Db.getSession (storage w') = Db.getSession (storage w)
  else storage w' = storage w.
Proof.
  intros Hid Hedits w1 w' form.
  assert (Hed : EditingUser user w w1).
  { subst w1. apply EditingUser_run; [exact Hedits|]. repeat split. }
  destruct Hed as (Hst & Husers & Hmode & Hfid & Hrole).
  fold form in Hfid, Hrole.
  subst w'. unfold handleUserSubmit. cbv zeta. fold form.
  rewrite Hmode, Hfid, Husers. cbn [negb andb JS.truthy].
  rewrite <- !negb_andb.
  destruct (JS.truthy (UserForm.libraryId form)) eqn:Hl;
    [|cbn; exact Hst].
  destruct (JS.truthy (UserForm.password form)) eqn:Hp;
    [|cbn; exact Hst].
  destruct (JS.truthy (UserForm.name form)) eqn:Hn;
    [|cbn; exact Hst].
  assert (Hne : JS.truthyStr (User.id user) = true).
  { unfold JS.truthyStr. apply negb_true_iff. now apply String.eqb_neq. }
  rewrite Hne. cbn. rewrite Hst. repeat split.
  - intros i u Hu. eexists. split; [apply nth_error_map_some, Hu|].
    cbv beta. destruct (String.eqb_spec (User.id u) (User.id user)) as [He|Hn'].
    + unfold UserForm.spreadOver. rewrite Hfid, Hrole. cbn.
      split; [now symmetry|]. split; [tauto|]. intros _.
      destruct (UserForm.libraryId form); [|discriminate Hl].
      destruct (UserForm.password form); [|discriminate Hp].
      destruct (UserForm.name form); [|discriminate Hn].
      repeat split.
    + split; [reflexivity|]. split; [reflexivity | tauto].
  - apply length_map.
Qed.

Lemma edit_user_keeps_id_and_role_witness :
  let w := adminDashboardMount (boot utc 1700000000000) in
  let john := User.mk "user1" "user" (Some "123") "John Doe" USER in
  let edits := [ ChangeUserField FLibraryId "admin";
                 ChangeUserField FName "Johnny" ] in
  let w' := handleUserSubmit 1700000050000
              (run edits (openUserModal ADMIN (Some john) w)) in
  nth_error (AdminDashboard.users (adminDash w)) 1 = Some john
  /\ exists u',
      nth_error (Db.getUsers (storage w')) 1 = Some u'
      /\ User.id u' = "user1" /\ User.role u' = USER
      /\ Some (User.libraryId u') = Some "admin".
Proof.
  intros w john edits w'. split; [reflexivity|].
  pose proof (edit_user_keeps_id_and_role w ADMIN john edits 1700000050000
                ltac:(discriminate) eq_refl) as Hedit.
  cbv zeta in Hedit.
  match type of Hedit with
  | if ?c then _ else _ =>
      replace c with true in Hedit by (vm_compute; reflexivity)
  end.
  destruct Hedit as (Hpos & _).
  destruct (Hpos 1%nat john eq_refl) as (u' & Hnth & Hid' & _ & Hsame).
  destruct (Hsame eq_refl) as (Hrole & Hlib & _).
  exists u'. repeat split; assumption.
Defined.

(** ** The two account tabs (components/AdminDashboard.tsx) *)

(** X7.  The "Staff" and "Students" tabs split the users: [librarians] is
    the selection of the users with role ADMIN and [normalUsers] the
    selection of those with role USER, both in the order of the list; every
    user is in exactly one of them and their lengths add up to the length of
    the list. *)
Theorem tabs_split_users (users : list User.t) :
  SelectedFrom (fun u => User.role u = ADMIN) users (librarians users)
  /\ SelectedFrom (fun u => User.role u = USER) users (normalUsers users)
  /\ (forall u, In u users <->
                (In u (librarians users) /\ ~ In u (normalUsers users))
                \/ (In u (normalUsers users) /\ ~ In u (librarians users)))
  /\ (List.length (librarians users) + List.length (normalUsers users)
      = List.length users)%nat.
Proof.
  assert (Ha : SelectedFrom (fun u => User.role u = ADMIN) users (librarians users)).
  { apply filter_SelectedFrom. intros u. apply UserRole_eqb_eq. }
  assert (Hu : SelectedFrom (fun u => User.role u = USER) users (normalUsers users)).
  { apply filter_SelectedFrom. intros u. apply UserRole_eqb_eq. }
  split; [exact Ha|]. split; [exact Hu|]. split.
  - intros u. rewrite (SelectedFrom_In _ _ _ u Ha), (SelectedFrom_In _ _ _ u Hu).
    destruct (User.role u); split.
    + intros Hin. left. split; [tauto|]. intros [_ Hr]. discriminate.
    + tauto.
    + intros Hin. right. split; [tauto|]. intros [_ Hr]. discriminate.
    + tauto.
  - clear Ha Hu. unfold librarians, normalUsers.
    induction users as [|u users IH]; simpl; [reflexivity|].
    destruct (User.role u); simpl; lia.
Qed.

(** ** Catalogue (components/AdminDashboard.tsx) *)

Lemma filter_comm {A : Type} (p q : A -> bool) (l : list A) :
  filter p (filter q l) = filter q (filter p l).
Proof.
  rewrite !filter_filter. apply filter_ext. intros x. apply andb_comm.
Qed.

Lemma filter_all {A : Type} (p : A -> bool) (l : list A) :
  (forall x, In x l -> p x = true) -> filter p l = l.
Proof.
  induction l as [|x l IH]; simpl; intros Hall; [reflexivity|].
  rewrite (Hall x (or_introl eq_refl)). f_equal. apply IH.
  intros y Hy. apply Hall. now right.
Qed.

(** X8.  [handleDeleteBook id] persists the books whose id is not [id], in
    their order, whether or not a removed book is on loan; no book with that
    id is left, and with it the book leaves the borrower's "Currently Issued"
    list.  Users and session are untouched.  Deleting again, or deleting an
    id no book has, leaves the list as it is. *)
Theorem handleDeleteBook_removes (id : string) (w : World) (currentUser : User.t) :
  let books := AdminDashboard.books (adminDash w) in
  let w' := handleDeleteBook id w in
  SelectedFrom (fun b => Book.id b <> id) books (Db.getBooks (storage w'))
  /\ (forall b, In b (Db.getBooks (storage w')) -> Book.id b <> id)
  /\ AdminDashboard.books (adminDash w') = Db.getBooks (storage w')
  /\ myBooks currentUser (Db.getBooks (storage w'))
     = filter (fun b => negb (Book.id b =? id)%string) (myBooks currentUser books)
  /\ Db.USERS (storage w') = Db.USERS (storage w)
  /\ Db.getSession (storage w') = Db.getSession (storage w)
  /\ Db.getBooks (storage (handleDeleteBook id w')) = Db.getBooks (storage w')
  /\ ((forall b, In b books -> Book.id b <> id) ->
      Db.getBooks (storage w') = books).
Proof.
  intros books w'.
  assert (Hsel : SelectedFrom (fun b => Book.id b <> id) books
                   (Db.getBooks (storage w'))).
  { apply filter_SelectedFrom. intros b.
    rewrite negb_true_iff. apply String.eqb_neq. }
  split; [exact Hsel|]. split.
  { intros b Hb. now apply (SelectedFrom_In _ _ _ b Hsel). }
  split; [reflexivity|]. split; [apply filter_comm|].
  split; [reflexivity|]. split; [reflexivity|]. split.
  - cbn. rewrite filter_filter. apply filter_ext. intros b.
    now destruct (Book.id b =? id)%string.
  - intros Hnone. cbn. apply filter_all. intros b Hb.
    apply negb_true_iff, String.eqb_neq. now apply Hnone.
Qed.

Lemma handleDeleteBook_removes_witness :
  let w := adminDashboardMount (boot utc 1700000000000) in
  let john := User.mk "user1" "user" (Some "123") "John Doe" USER in
  map Book.id (myBooks john (AdminDashboard.books (adminDash w))) = ["b3"]
  /\ map Book.id (Db.getBooks (storage (handleDeleteBook "b3" w))) = ["b1"; "b2"]
  /\ myBooks john (Db.getBooks (storage (handleDeleteBook "b3" w))) = []
  /\ Db.getBooks (storage (handleDeleteBook "b9" w))
     = AdminDashboard.books (adminDash w).
Proof.
  intros w john. split; [reflexivity|]. split; [reflexivity|].
  destruct (handleDeleteBook_removes "b3" w john) as (_ & _ & _ & Hmine & _).
  split; [rewrite Hmine; reflexivity|].
  destruct (handleDeleteBook_removes "b9" w john)
    as (_ & _ & _ & _ & _ & _ & _ & Hnone).
  apply Hnone. intros b [<-|[<-|[<-|[]]]]; discriminate.
Defined.

(** The numeral of an integer determines the integer. *)
Lemma numeral_injective (a b : Z) : JS.numeral a = JS.numeral b -> a = b.
Proof.
  assert (Hparse : forall z,
             NilZero.int_of_string (JS.numeral z) = Some (Z.to_int z)).
  { intros z. unfold JS.numeral. apply NilZero.isi; intros Hz;
      pose proof (DecimalZ.of_to z) as Hof; rewrite Hz in Hof;
      destruct z; try discriminate;
      simpl in Hz; injection Hz as Hz;
      pose proof (DecimalPos.Unsigned.of_to p) as Hp;
      rewrite Hz in Hp; discriminate. }
  intros Heq. pose proof (Hparse a) as Ha. rewrite Heq, Hparse in Ha.
  injection Ha as Ha. rewrite <- (DecimalZ.of_to a), <- (DecimalZ.of_to b).
  now rewrite Ha.
Qed.

(** X9.  [handleBookSubmit] outside edit mode, on a form with a title and a
    stand number, appends one book to the list and persists it: the existing
    books keep their places, the new book is available (not issued, no
    borrower, no date), has the title and stand number typed, the author,
    genre and cover typed or else "Unknown", "General" and the placeholder
    cover, and the id "b" followed by the clock value.  Ids made at different
    clock values differ, so ids that were pairwise distinct stay so unless a
    book already carries the id of this clock value. *)
Theorem handleBookSubmit_creates (now : Z) (w : World) :
  AdminDashboard.isEditMode (adminDash w) = false ->
  JS.truthy (BookForm.title (AdminDashboard.bookForm (adminDash w))) = true ->
  JS.truthy (BookForm.standNumber (AdminDashboard.bookForm (adminDash w))) = true ->
  let form := AdminDashboard.bookForm (adminDash w) in
  let books := AdminDashboard.books (adminDash w) in
  let w' := handleBookSubmit now w in
  exists newBook,
    Db.getBooks (storage w') = books ++ [newBook]
    /\ AdminDashboard.books (adminDash w') = books ++ [newBook]
    /\ AdminDashboard.isBookModalOpen (adminDash w') = false
    /\ Book.id newBook = ("b" ++ JS.numeral now)%string
    /\ lending newBook = (false, None, None)
    /\ Some (Book.title newBook) = BookForm.title form
    /\ Some (Book.standNumber newBook) = BookForm.standNumber form
    /\ Book.author newBook
       = (if JS.truthy (BookForm.author form)
          then BookForm.orOf (BookForm.author form) "" else "Unknown")
    /\ Book.genre newBook
       = (if JS.truthy (BookForm.genre form)
          then BookForm.orOf (BookForm.genre form) "" else "General")
    /\ Book.coverUrl newBook
       = (if JS.truthy (BookForm.cover form)
          then BookForm.cover form else Some noCover)
    /\ (forall t, t <> now -> ("b" ++ JS.numeral t)%string <> Book.id newBook)
    /\ (NoDup (map Book.id books) ->
        ~ In ("b" ++ JS.numeral now)%string (map Book.id books) ->
        NoDup (map Book.id (Db.getBooks (storage w')))).
Proof.
  intros Hmode Ht Hs form books w'. subst w' form books.
  unfold handleBookSubmit. cbv zeta. rewrite Hmode, Ht, Hs.
  cbn [negb orb andb].
  set (form := AdminDashboard.bookForm (adminDash w)) in *.
  eexists. split; [reflexivity|]. split; [reflexivity|].
  split; [reflexivity|]. split; [reflexivity|]. split; [reflexivity|].
  cbn [Book.title Book.standNumber Book.author Book.genre Book.coverUrl Book.id].
  split.
  { destruct (BookForm.title form); [reflexivity | discriminate Ht]. }
  split.
  { destruct (BookForm.standNumber form); [reflexivity | discriminate Hs]. }
  split.
  { unfold JS.orStr, JS.truthy. destruct (BookForm.author form) as [a|];
      [destruct (JS.truthyStr a)|]; reflexivity. }
  split.
  { unfold JS.orStr, JS.truthy. destruct (BookForm.genre form) as [g|];
      [destruct (JS.truthyStr g)|]; reflexivity. }
  split.
  { unfold JS.orStr, JS.truthy. destruct (BookForm.cover form) as [c|];
      [destruct (JS.truthyStr c)|]; reflexivity. }
  split.
  { intros t Hne Heq. injection Heq as Heq. now apply numeral_injective in Heq. }
  intros Hnd Hfresh. cbn. rewrite map_app. now apply NoDup_snoc.
Qed.

Lemma handleBookSubmit_creates_witness :
  let w := changeBookField FStandNumber "C2" (changeBookField FTitle "Emma"
             (openAddBookModal (adminDashboardMount (boot utc 1700000000000)))) in
  let w' := handleBookSubmit 1700000050000 w in
  map Book.id (Db.getBooks (storage w')) = ["b1"; "b2"; "b3"; "b1700000050000"]
  /\ NoDup (map Book.id (Db.getBooks (storage w')))
  /\ map Book.author (Db.getBooks (storage w'))
     = ["F. Scott Fitzgerald"; "George Orwell"; "Robert C. Martin"; "Unknown"].
Proof.
  intros w w'. split; [reflexivity|].
  destruct (handleBookSubmit_creates 1700000050000 w eq_refl eq_refl eq_refl)
    as (newBook & _ & _ & _ & _ & _ & _ & _ & _ & _ & _ & _ & Hnd).
  split; [|reflexivity]. apply Hnd.
  - repeat constructor; simpl; intuition discriminate.
  - simpl. intuition discriminate.
Defined.

(** ** Lending round trips (components/UserDashboard.tsx, AdminDashboard.tsx) *)

Lemma map_id_on {A : Type} (f : A -> A) (l : list A) :
  (forall x, In x l -> f x = x) -> map f l = l.
Proof.
  induction l as [|x l IH]; simpl; intros Hf; [reflexivity|].
  rewrite (Hf x (or_introl eq_refl)). f_equal. apply IH.
  intros y Hy. apply Hf. now right.
Qed.

(** X10.  Issue followed by the admin's return is the identity on the
    persisted books: when the books of the user's list with the id of the
    book issued were available (not issued, no borrower, no date), the list
    persisted after [handleIssueBook], a mount of the admin dashboard and
    [handleReturnBook] on that id is the list the user dashboard started
    from.  A return of an id whose books in the admin's list are all
    available persists that list unchanged. *)
Theorem issue_then_return_restores (currentUser : User.t) (now : Z)
  (book : Book.t) (w : World) :
  (Book.isIssued book = false ->
   (forall b, In b (UserDashboard.books (userDash w)) ->
              Book.id b = Book.id book -> lending b = (false, None, None)) ->
   Db.getBooks
     (storage (handleReturnBook (Book.id book)
                 (adminDashboardMount (handleIssueBook currentUser now book w))))
   = UserDashboard.books (userDash w))
  /\ ((forall b, In b (AdminDashboard.books (adminDash w)) ->
                 Book.id b = Book.id book -> lending b = (false, None, None)) ->
      Db.getBooks (storage (handleReturnBook (Book.id book) w))
      = AdminDashboard.books (adminDash w)).
Proof.
  assert (Hback : forall b, lending b = (false, None, None) -> markReturned b = b).
  { intros [i t a g c s issued u d de] Hl. unfold lending in Hl. simpl in Hl.
    injection Hl as -> -> ->. reflexivity. }
  split.
  - intros Hfree Havail. unfold handleIssueBook. rewrite Hfree. cbn.
    rewrite map_map. apply map_id_on. intros b Hb.
    destruct (String.eqb_spec (Book.id b) (Book.id book)) as [He|Hne].
    + cbn [Book.id markIssued]. rewrite (proj2 (String.eqb_eq _ _) He).
      rewrite <- (Hback b (Havail b Hb He)) at 2. reflexivity.
    + now rewrite (proj2 (String.eqb_neq _ _) Hne).
  - intros Havail. cbn. apply map_id_on. intros b Hb.
    destruct (String.eqb_spec (Book.id b) (Book.id book)) as [He|Hne];
      [|reflexivity].
    now apply Hback, Havail.
Qed.

Lemma issue_then_return_restores_witness :
  let w := userDashboardMount (boot utc 1700000000000) in
  let john := User.mk "user1" "user" (Some "123") "John Doe" USER in
  exists gatsby,
    nth_error (UserDashboard.books (userDash w)) 0 = Some gatsby
    /\ Book.isIssued gatsby = false
    /\ map Book.isIssued
         (Db.getBooks (storage (handleIssueBook john 1700000600000 gatsby w)))
       = [true; false; true]
    /\ Db.getBooks
         (storage (handleReturnBook "b1"
                     (adminDashboardMount
                        (handleIssueBook john 1700000600000 gatsby w))))
       = Db.initialBooks utc 1700000000000.
Proof.
  intros w john. eexists. split; [reflexivity|]. split; [reflexivity|].
  split; [reflexivity|].
  match goal with
  | |- context [handleIssueBook _ _ ?g _] =>
      apply (proj1 (issue_then_return_restores john 1700000600000 g w)
               eq_refl)
  end.
  intros b [<-|[<-|[<-|[]]]] He; solve [reflexivity | discriminate He].
Defined.

Lemma matchesQuery_markIssued (q userId : string) (now : Z) (b : Book.t) :
  matchesQuery q (markIssued userId now b) = matchesQuery q b.
Proof. reflexivity. Qed.

Lemma filter_map_same {A : Type} (p : A -> bool) (f : A -> A) (l : list A) :
  (forall x, p (f x) = p x) -> filter p (map f l) = map f (filter p l).
Proof.
  intros Hp. induction l as [|x l IH]; simpl; [reflexivity|].
  rewrite Hp. destruct (p x); simpl; now rewrite IH.
Qed.

Lemma ceilDiv_nonneg (a b : Z) : 0 < b -> 0 <= a -> 0 <= JS.ceilDiv a b.
Proof.
  intros Hb Ha. pose proof (ceilDiv_bounds a b Hb). nia.
Qed.

Lemma ceilDiv_pos (a b : Z) : 0 < b -> 0 < a -> 1 <= JS.ceilDiv a b.
Proof.
  intros Hb Ha. pose proof (ceilDiv_bounds a b Hb). nia.
Qed.

Lemma ceilDiv_monotone (a a' b : Z) :
  0 < b -> a <= a' -> JS.ceilDiv a b <= JS.ceilDiv a' b.
Proof.
  intros Hb Ha. pose proof (ceilDiv_bounds a b Hb).
  pose proof (ceilDiv_bounds a' b Hb). nia.
Qed.

Lemma ceilDiv_add_one (a b : Z) :
  0 < b -> JS.ceilDiv (a + b) b = JS.ceilDiv a b + 1.
Proof.
  intros Hb. apply ceilDiv_unique; [exact Hb|].
  pose proof (ceilDiv_bounds a b Hb). nia.
Qed.

(** The fine of a card, with the absolute value resolved. *)
Lemma loanCard_fine (zone : Zone) (today : Z) (book : Book.t) :
  let due := Db.addDays zone (dateOf (Book.issuedDate book)) 7 in
  isOverdue (loanCard zone today book) = (due <? today)%Z
  /\ fine (loanCard zone today book)
     = (if (due <? today)%Z then JS.ceilDiv (today - due) 86400000 * 5 else 0).
Proof.
  intros due. unfold loanCard. cbn [isOverdue fine]. fold due.
  split; [reflexivity|].
  destruct (Z.ltb_spec due today) as [Hlt|_]; [|reflexivity].
  change (1000 * 60 * 60 * 24) with 86400000.
  now rewrite Z.abs_eq by lia.
Qed.

(** X11.  After [handleIssueBook] on an available book of the list, the book
    with its loan is among the acting user's "Currently Issued" books; its
    card shows no fine and is not overdue at any reading up to its due date,
    the time of the issue moved seven calendar days on in local time; and
    the search shows the books it showed, since no catalogue field
    changed. *)
Theorem issued_book_is_mine_and_free (zone : Zone) (currentUser : User.t) (now : Z)
  (book : Book.t) (w : World) (q : string) :
  Book.isIssued book = false ->
  In book (UserDashboard.books (userDash w)) ->
  let w' := handleIssueBook currentUser now book w in
  let mine := markIssued (User.id currentUser) now book in
  In mine (myBooks currentUser (UserDashboard.books (userDash w')))
  /\ (forall today, today <= Db.addDays zone now 7 ->
        fine (loanCard zone today mine) = 0
        /\ isOverdue (loanCard zone today mine) = false)
  /\ map Book.id (filteredBooks (UserDashboard.books (userDash w')) q)
     = map Book.id (filteredBooks (UserDashboard.books (userDash w)) q)
  /\ UserDashboard.selectedBook (userDash w') = None.
Proof.
  intros Hfree Hin w' mine.
  assert (Hbooks : UserDashboard.books (userDash w')
                   = map (fun b => if (Book.id b =? Book.id book)%string
                                   then markIssued (User.id currentUser) now b
                                   else b)
                       (UserDashboard.books (userDash w))).
  { subst w'. unfold handleIssueBook. now rewrite Hfree. }
  split; [|split; [|split]].
  - rewrite Hbooks. unfold myBooks. apply filter_In. split.
    + apply in_map_iff. exists book. split; [|exact Hin].
      now rewrite String.eqb_refl.
    + unfold issuedToIs. simpl. apply String.eqb_refl.
  - intros today Hle.
    destruct (loanCard_fine zone today mine) as [-> ->]. cbn [dateOf mine].
    change (dateOf (Book.issuedDate mine)) with now.
    destruct (Z.ltb_spec (Db.addDays zone now 7) today); [lia | now split].
  - rewrite Hbooks. unfold filteredBooks. rewrite filter_map_same.
    + rewrite map_map. apply map_ext. intros b.
      now destruct (Book.id b =? Book.id book)%string.
    + intros b. now destruct (Book.id b =? Book.id book)%string.
  - subst w'. unfold handleIssueBook. now rewrite Hfree.
Qed.

Lemma issued_book_is_mine_and_free_witness :
  let w := userDashboardMount (boot utc 1700000000000) in
  let john := User.mk "user1" "user" (Some "123") "John Doe" USER in
  exists orwell,
    nth_error (UserDashboard.books (userDash w)) 1 = Some orwell
    /\ map Book.id
         (myBooks john
            (UserDashboard.books
               (userDash (handleIssueBook john 1700000600000 orwell w))))
       = ["b2"; "b3"]
    /\ fine (loanCard utc (1700000600000 + 7 * 86400000)
               (markIssued "user1" 1700000600000 orwell)) = 0
    /\ fine (loanCard utc (1700000600000 + 7 * 86400000 + 1)
               (markIssued "user1" 1700000600000 orwell)) = 5.
Proof.
  intros w john. eexists. split; [reflexivity|]. split; [reflexivity|].
  split; [|reflexivity].
  match goal with
  | |- context [markIssued _ _ ?b] =>
      destruct (issued_book_is_mine_and_free utc john 1700000600000 b w ""
                  eq_refl (or_intror (or_introl eq_refl)))
        as (_ & Hfine & _)
  end.
  apply Hfine. discriminate.
Defined.

(** ** How fines behave (components/UserDashboard.tsx, AdminDashboard.tsx) *)

(** X12.  The fine of a card is never negative and always a multiple of 5.
    As soon as the book is overdue, by one millisecond, the fine is at least
    5: a started day counts as a day.  A later reading never shows a smaller
    fine, and a reading one day later of an overdue book shows exactly 5
    more. *)
Theorem fine_grows_in_steps (zone : Zone) (today today' : Z) (book : Book.t) :
  (exists days, 0 <= days /\ fine (loanCard zone today book) = days * 5)
  /\ (isOverdue (loanCard zone today book) = true -> 5 <= fine (loanCard zone today book))
  /\ (today <= today' ->
      fine (loanCard zone today book) <= fine (loanCard zone today' book))
  /\ (isOverdue (loanCard zone today book) = true ->
      fine (loanCard zone (today + Db.msPerDay) book) = fine (loanCard zone today book) + 5).
Proof.
  set (due := Db.addDays zone (dateOf (Book.issuedDate book)) 7).
  assert (Hfine : forall t,
             fine (loanCard zone t book)
             = (if (due <? t)%Z then JS.ceilDiv (t - due) 86400000 * 5 else 0)).
  { intros t. apply (loanCard_fine zone t book). }
  assert (Hover : isOverdue (loanCard zone today book) = (due <? today)%Z).
  { apply (loanCard_fine zone today book). }
  rewrite Hover, msPerDay_value, !Hfine.
  split; [|split; [|split]].
  - destruct (Z.ltb_spec due today) as [Hlt|Hge].
    + exists (JS.ceilDiv (today - due) 86400000). split; [|reflexivity].
      apply ceilDiv_nonneg; lia.
    + exists 0. split; [lia | reflexivity].
  - intros Hlt. rewrite Hlt. apply Z.ltb_lt in Hlt.
    pose proof (ceilDiv_pos (today - due) 86400000 eq_refl). lia.
  - intros Hle.
    destruct (Z.ltb_spec due today) as [Hlt|Hge];
      destruct (Z.ltb_spec due today') as [Hlt'|Hge']; try lia.
    + pose proof (ceilDiv_monotone (today - due) (today' - due) 86400000 eq_refl).
      lia.
    + pose proof (ceilDiv_nonneg (today' - due) 86400000 eq_refl). lia.
  - intros Hlt. rewrite Hlt. apply Z.ltb_lt in Hlt.
    destruct (Z.ltb_spec due (today + 86400000)); [|lia].
    replace (today + 86400000 - due) with (today - due + 86400000) by lia.
    rewrite ceilDiv_add_one by reflexivity. lia.
Qed.

Lemma fine_grows_in_steps_witness :
  let t0 := 1700000000000 in
  let cleanCode :=
    Book.mk "b3" "Clean Code" "Robert C. Martin" "Technology"
      (Some "https://picsum.photos/300/450?random=3") "T5"
      true (Some "user1") (Some (Db.getPastDate utc t0 14))
      (Some "A handbook of agile software craftsmanship.") in
  isOverdue (loanCard utc (t0 + 1) cleanCode) = true
  /\ fine (loanCard utc (t0 + 1) cleanCode) = 40
  /\ fine (loanCard utc (t0 + 1 + Db.msPerDay) cleanCode) = 45.
Proof.
  intros t0 cleanCode. split; [reflexivity|]. split; [reflexivity|].
  destruct (fine_grows_in_steps utc (t0 + 1) (t0 + 1) cleanCode)
    as (_ & _ & _ & Hstep).
  rewrite (Hstep eq_refl). reflexivity.
Defined.

Lemma totalFine_sum (zone : Zone) (user : User.t) (today : Z) (books : list Book.t) :
  totalFine zone user today books
  = sumZ (map (fun b => fine (loanCard zone today b)) (filter (countsFor user) books)).
Proof.
  unfold totalFine. cbv zeta. rewrite totalFine_fold, filter_filter. simpl.
  f_equal. f_equal. apply filter_ext. intros b. unfold countsFor.
  now rewrite andb_assoc.
Qed.

Lemma filter_ext_on {A : Type} (p q : A -> bool) (l : list A) :
  (forall x, In x l -> p x = q x) -> filter p l = filter q l.
Proof.
  induction l as [|x l IH]; simpl; intros Hpq; [reflexivity|].
  rewrite (Hpq x (or_introl eq_refl)), IH; [reflexivity|].
  intros y Hy. apply Hpq. now right.
Qed.

(** X13.  On a list of books whose lending fields agree, the fines on the
    student's own cards add up to the total the admin's table shows for that
    student, at the same reading. *)
Theorem student_and_admin_totals_agree (zone : Zone) (user : User.t) (today : Z)
  (books : list Book.t) :
  Forall LendingConsistent books ->
  sumZ (map (fun card => fine (snd card)) (myLoanCards zone user today books))
  = totalFine zone user today books.
Proof.
  intros Hcons. rewrite totalFine_sum. unfold myLoanCards, myBooks.
  rewrite map_map. cbn [snd]. f_equal. f_equal. apply filter_ext_on.
  intros b Hb. rewrite Forall_forall in Hcons.
  destruct (Hcons b Hb) as [[_ Hissued] [Hdate _]].
  unfold countsFor, issuedToIs.
  destruct (Book.issuedToUserId b) as [holder|]; [|reflexivity].
  rewrite Hissued by discriminate.
  destruct (Book.issuedDate b); [now rewrite !andb_true_r|].
  exfalso. now apply Hdate.
Qed.

Lemma student_and_admin_totals_agree_witness :
  let t := 1700000000000 in
  let john := User.mk "user1" "user" (Some "123") "John Doe" USER in
  Forall LendingConsistent (Db.initialBooks utc t)
  /\ sumZ (map (fun card => fine (snd card))
             (myLoanCards utc john (t + 3 * 86400000) (Db.initialBooks utc t)))
     = 50
  /\ totalFine utc john (t + 3 * 86400000) (Db.initialBooks utc t) = 50.
Proof.
  intros t john.
  assert (Hcons : Forall LendingConsistent (Db.initialBooks utc t)).
  { repeat constructor; simpl; try congruence; intros H; try discriminate;
      now contradiction H. }
  split; [exact Hcons|]. split; [reflexivity|].
  rewrite <- (student_and_admin_totals_agree utc john (t + 3 * 86400000) _ Hcons).
  reflexivity.
Defined.

Lemma fine_nonneg (zone : Zone) (today : Z) (b : Book.t) :
  0 <= fine (loanCard zone today b).
Proof.
  destruct (loanCard_fine zone today b) as [_ ->].
  set (due := Db.addDays zone (dateOf (Book.issuedDate b)) 7).
  destruct (Z.ltb_spec due today); [|lia].
  pose proof (ceilDiv_nonneg (today - due) 86400000 eq_refl). lia.
Qed.

Lemma sumZ_filter_le (zone : Zone) (today : Z) (p q : Book.t -> bool) (l : list Book.t) :
  0 <= sumZ (map (fun b => fine (loanCard zone today b))
               (filter (fun b => p b && q b) l))
    <= sumZ (map (fun b => fine (loanCard zone today b)) (filter q l)).
Proof.
  unfold sumZ. induction l as [|b l IH]; cbn [filter map fold_right]; [lia|].
  pose proof (fine_nonneg zone today b).
  destruct (p b), (q b); cbn [andb map fold_right]; lia.
Qed.

Lemma filter_returned (user : User.t) (bookId : string) (l : list Book.t) :
  filter (countsFor user)
    (map (fun b => if (Book.id b =? bookId)%string then markReturned b else b) l)
  = filter (fun b => negb (Book.id b =? bookId)%string && countsFor user b) l.
Proof.
  induction l as [|b l IH]; simpl; [reflexivity|]. rewrite IH.
  destruct (Book.id b =? bookId)%string; reflexivity.
Qed.

(** X14.  A return wipes the fine: after [handleReturnBook bookId] the total
    the table shows for a student is the total over the books with another
    id, as if the returned book had never been on loan; it is never negative
    and never more than before.  Nothing else records what was owed. *)
Theorem return_wipes_fine (zone : Zone) (bookId : string) (w : World) (user : User.t)
  (today : Z) :
  let books := AdminDashboard.books (adminDash w) in
  let books' := Db.getBooks (storage (handleReturnBook bookId w)) in
  totalFine zone user today books'
  = totalFine zone user today
      (filter (fun b => negb (Book.id b =? bookId)%string) books)
  /\ 0 <= totalFine zone user today books' <= totalFine zone user today books.
Proof.
  intros books books'.
  assert (Hsum : totalFine zone user today books'
                 = sumZ (map (fun b => fine (loanCard zone today b))
                           (filter (fun b => negb (Book.id b =? bookId)%string
                                             && countsFor user b) books))).
  { rewrite totalFine_sum. subst books'. cbn. now rewrite filter_returned. }
  split.
  - rewrite Hsum, totalFine_sum, filter_filter. reflexivity.
  - rewrite Hsum, (totalFine_sum zone user today books). apply sumZ_filter_le.
Qed.

Example return_wipes_fine_seed :
  let t := 1700000000000 in
  let w := adminDashboardMount (boot utc t) in
  let john := User.mk "user1" "user" (Some "123") "John Doe" USER in
  totalFine utc john (t + 86400000) (AdminDashboard.books (adminDash w)) = 40
  /\ totalFine utc john (t + 86400000)
       (Db.getBooks (storage (handleReturnBook "b3" w))) = 0.
Proof. split; reflexivity. Qed.

(** ** Search as the query is typed (components/UserDashboard.tsx) *)

Lemma includes_empty (s : string) : JS.includes s "" = true.
Proof. destruct s; reflexivity. Qed.

Lemma Substring_trans (a b c : string) :
  Substring a b -> Substring b c -> Substring a c.
Proof.
  intros (p1 & s1 & ->) (p2 & s2 & ->).
  exists (p2 ++ p1)%string, (s1 ++ s2)%string.
  induction p2 as [|x p2 IH]; simpl.
  - induction p1 as [|y p1 IH1]; simpl; [|now rewrite IH1].
    induction a as [|z a IHa]; simpl; [reflexivity | now rewrite IHa].
  - now rewrite IH.
Qed.

Lemma matchesQuery_narrows (q q' : string) (b : Book.t) :
  Substring (JS.toLowerCase q) (JS.toLowerCase q') ->
  matchesQuery q' b = true -> matchesQuery q b = true.
Proof.
  intros Hsub. unfold matchesQuery. rewrite !orb_true_iff, !includes_iff.
  intros [[H|H]|H]; [left; left | left; right | right];
    eapply Substring_trans; eassumption.
Qed.

(** X15.  The empty query shows the whole collection, and filtering twice
    by the same query shows what filtering once shows.  A query whose
    lower-cased form contains the lower-cased form of another one only
    narrows what that one shows: its books are those it selects among the
    books shown for the other query, so all of them were shown before.
    Nothing is assumed on how lower-casing maps characters. *)
Theorem search_narrows_as_typed (books : list Book.t) (q q' : string) :
  filteredBooks books "" = books
  /\ filteredBooks (filteredBooks books q) q = filteredBooks books q
  /\ (Substring (JS.toLowerCase q) (JS.toLowerCase q') ->
      filteredBooks books q' = filteredBooks (filteredBooks books q) q'
      /\ incl (filteredBooks books q') (filteredBooks books q)).
Proof.
  split; [|split].
  - apply filter_all. intros b _. unfold matchesQuery. simpl.
    now rewrite includes_empty.
  - unfold filteredBooks. rewrite filter_filter. apply filter_ext. intros b.
    now destruct (matchesQuery q b).
  - intros Hsub.
    assert (Heq : filteredBooks books q'
                  = filteredBooks (filteredBooks books q) q').
    { unfold filteredBooks. rewrite filter_filter. apply filter_ext. intros b.
      destruct (matchesQuery q' b) eqn:Hm.
      - now rewrite (matchesQuery_narrows q _ b Hsub Hm).
      - symmetry. apply andb_false_r. }
    split; [exact Heq|].
    rewrite Heq. intros b Hb. unfold filteredBooks in Hb at 1.
    now apply filter_In in Hb as [Hb _].
Qed.

Lemma search_narrows_as_typed_witness :
  let books := Db.initialBooks utc 0 in
  Substring (JS.toLowerCase "ge") (JS.toLowerCase "Geo")
  /\ filteredBooks books "Geo" = filteredBooks (filteredBooks books "ge") "Geo"
  /\ incl (filteredBooks books "Geo") (filteredBooks books "ge").
Proof.
  intros books.
  assert (Hsub : Substring (JS.toLowerCase "ge") (JS.toLowerCase "Geo"))
    by (exists "", "o"; reflexivity).
  split; [exact Hsub|].
  exact (proj2 (proj2 (search_narrows_as_typed books "ge" "Geo")) Hsub).
Defined.

Example search_narrows_seed :
  map Book.id (filteredBooks (Db.initialBooks utc 0) "e") = ["b1"; "b2"; "b3"]
  /\ map Book.id (filteredBooks (Db.initialBooks utc 0) "Ge") = ["b1"; "b2"]
  /\ map Book.id (filteredBooks (Db.initialBooks utc 0) "GeO") = ["b2"]
  /\ map Book.id (filteredBooks (Db.initialBooks utc 0) " ") = ["b1"; "b2"; "b3"]
  /\ map Book.id (filteredBooks (Db.initialBooks utc 0) "  ") = [].
Proof. repeat split; reflexivity. Qed.

(** ** Required fields (App.tsx, components/AdminDashboard.tsx) *)

Lemma allWhiteSpace_trimStart (s : string) :
  allWhiteSpace (JS.trimStart s) = allWhiteSpace s.
Proof.
  induction s as [|c s IH]; simpl; [reflexivity|].
  destruct (JS.isWhiteSpace c) eqn:Hc; simpl; [exact IH | now rewrite Hc].
Qed.

Lemma trimEnd_empty_iff (s : string) :
  JS.trimEnd s = "" <-> allWhiteSpace s = true.
Proof.
  induction s as [|c s IH]; simpl; [tauto|].
  destruct (JS.isWhiteSpace c); simpl.
  - destruct (String.eqb_spec (JS.trimEnd s) "") as [He|Hne].
    + split; [intros _; now apply IH | reflexivity].
    + split; [discriminate|]. intros Hall. apply IH in Hall. contradiction.
  - split; discriminate.
Qed.

(** [trim] leaves nothing exactly of the strings made of white space. *)
Lemma trim_empty_iff (s : string) :
  JS.trim s = "" <-> allWhiteSpace s = true.
Proof.
  unfold JS.trim. now rewrite trimEnd_empty_iff, allWhiteSpace_trimStart.
Qed.

Lemma truthyStr_trim (s : string) :
  JS.truthyStr (JS.trim s) = negb (allWhiteSpace s).
Proof.
  unfold JS.truthyStr. f_equal.
  destruct (String.eqb_spec (JS.trim s) "") as [He|Hne];
    destruct (allWhiteSpace s) eqn:Hall; try reflexivity.
  - apply trim_empty_iff in He. congruence.
  - apply trim_empty_iff in Hall. contradiction.
Qed.

(** X16.  [handleSignup] answers with the missing-field error, changing
    nothing else, exactly when the name, the identifier or the secret is
    empty or made of white space only.  The account form of the admin asks
    for less: [handleUserSubmit] answers with its missing-field error exactly
    when identifier, secret or name is absent or the empty string, so a name
    of blanks passes there. *)
Theorem missing_field_iff (fault : SignupFault) (now : Z) (w : World) :
  (handleSignup fault now w = notify fillInAllFields error w
   <-> allWhiteSpace (App.name (app w)) || allWhiteSpace (App.libId (app w))
       || allWhiteSpace (App.password (app w)) = true)
  /\ (handleUserSubmit now w = notify allFieldsRequired error w
      <-> negb (JS.truthy (UserForm.libraryId (AdminDashboard.userForm (adminDash w))))
          || negb (JS.truthy (UserForm.password (AdminDashboard.userForm (adminDash w))))
          || negb (JS.truthy (UserForm.name (AdminDashboard.userForm (adminDash w))))
          = true).
Proof.
  split.
  - unfold handleSignup. cbv zeta. rewrite !truthyStr_trim, !negb_involutive.
    destruct (_ || _); [tauto|]. split; [|discriminate].
    intros Heq. apply (f_equal (fun x => App.notification (app x))) in Heq.
    destruct (JS.find _ _); [|destruct fault]; cbn in Heq; discriminate Heq.
  - unfold handleUserSubmit. cbv zeta.
    destruct (_ || _); [tauto|]. split; [|discriminate].
    intros Heq. apply (f_equal (fun x => App.notification (app x))) in Heq.
    destruct (_ && _); cbn in Heq; [discriminate Heq|].
    destruct (AdminDashboard.isUserEditMode (adminDash w)); discriminate Heq.
Qed.

Example blank_name_passes_admin_form :
  let w0 := adminDashboardMount (boot utc 1700000000000) in
  let wa := changeUserField FPassword " " (changeUserField FName "  "
              (changeUserField FLibraryId "eve" (openUserModal USER None w0))) in
  let ws := setPassword " " (setLibId "eve" (setName "  "
              (navigate true SIGNUP (boot utc 1700000000000)))) in
  map User.name (Db.getUsers (storage (handleUserSubmit 1700000050000 wa)))
  = ["Head Librarian"; "John Doe"; "  "]
  /\ handleSignup NoFault 1700000050000 ws = notify fillInAllFields error ws.
Proof. split; reflexivity. Qed.

(** ** What a dashboard holds and what an event writes *)

Ltac split_cases :=
  repeat match goal with
         | |- context [match ?x with _ => _ end] => destruct x
         end.

Lemma admin_event_coherent (e : Event) (w : World) :
  isAdminEvent e = true ->
  AdminDashboard.books (adminDash w) = Db.getBooks (storage w)
  /\ AdminDashboard.users (adminDash w) = Db.getUsers (storage w) ->
  AdminDashboard.books (adminDash (fire e w)) = Db.getBooks (storage (fire e w))
  /\ AdminDashboard.users (adminDash (fire e w)) = Db.getUsers (storage (fire e w)).
Proof.
  intros He Hw. destruct e; try discriminate He; cbn [fire];
    unfold handleImageUpload, changeBookField, handleSmartFillStart,
      handleSmartFillSettle, handleBookSubmit, openUserModal, changeUserField,
      handleUserSubmit; cbv zeta; split_cases;
    solve [exact Hw | split; reflexivity].
Qed.

Lemma user_event_coherent (e : Event) (w : World) :
  isUserEvent e = true ->
  UserDashboard.books (userDash w) = Db.getBooks (storage w) ->
  UserDashboard.books (userDash (fire e w)) = Db.getBooks (storage (fire e w))
  /\ Db.USERS (storage (fire e w)) = Db.USERS (storage w).
Proof.
  intros He Hb. destruct e; try discriminate He; cbn [fire];
    unfold handleIssueBook; split_cases;
    solve [split; [exact Hb | reflexivity] | split; reflexivity].
Qed.

(** X17.  A dashboard never works on a stale copy.  From its mount on, and
    through any sequence of its own events, the admin dashboard's lists of
    books and users are the persisted ones, and the user dashboard's list of
    books is the persisted one; the events of the user dashboard leave the
    persisted users alone. *)
Theorem dashboards_hold_persisted_lists (es : list Event) (w : World) :
  (forallb isAdminEvent es = true ->
   let w' := run es (adminDashboardMount w) in
   AdminDashboard.books (adminDash w') = Db.getBooks (storage w')
   /\ AdminDashboard.users (adminDash w') = Db.getUsers (storage w'))
  /\ (forallb isUserEvent es = true ->
      let w' := run es (userDashboardMount w) in
      UserDashboard.books (userDash w') = Db.getBooks (storage w')
      /\ Db.USERS (storage w') = Db.USERS (storage w)).
Proof.
  split.
  - intros Hes. cbv zeta.
    assert (H0 : AdminDashboard.books (adminDash (adminDashboardMount w))
                 = Db.getBooks (storage (adminDashboardMount w))
                 /\ AdminDashboard.users (adminDash (adminDashboardMount w))
                    = Db.getUsers (storage (adminDashboardMount w)))
      by (split; reflexivity).
    revert H0. generalize (adminDashboardMount w). unfold run.
    induction es as [|e es IH]; simpl; intros w0 H0; [exact H0|].
    apply andb_true_iff in Hes as [He Hes].
    apply IH; [exact Hes|]. now apply admin_event_coherent.
  - intros Hes. cbv zeta.
    assert (H0 : UserDashboard.books (userDash (userDashboardMount w))
                 = Db.getBooks (storage (userDashboardMount w))
                 /\ Db.USERS (storage (userDashboardMount w)) = Db.USERS (storage w))
      by (split; reflexivity).
    revert H0. generalize (userDashboardMount w). unfold run.
    induction es as [|e es IH]; simpl; intros w0 H0; [exact H0|].
    apply andb_true_iff in Hes as [He Hes].
    apply IH; [exact Hes|].
    destruct H0 as [Hb Hu].
    destruct (user_event_coherent e w0 He Hb) as [Hb' Hu'].
    split; [exact Hb' | congruence].
Qed.

Lemma dashboards_hold_persisted_lists_witness :
  let t0 := 1700000000000 in
  let es := [ EditBook 2; ChangeBookField FTitle "Clean Code, 2nd ed.";
              SubmitBook (t0 + 1000); ReturnBook "b3"; DeleteUser "user1";
              DeleteBook "b1" ] in
  let w' := run es (adminDashboardMount (boot utc t0)) in
  forallb isAdminEvent es = true
  /\ map Book.title (Db.getBooks (storage w')) = ["1984"; "Clean Code, 2nd ed."]
  /\ AdminDashboard.books (adminDash w') = Db.getBooks (storage w')
  /\ AdminDashboard.users (adminDash w') = Db.getUsers (storage w').
Proof.
  intros t0 es w'. split; [reflexivity|]. split; [reflexivity|].
  exact (proj1 (dashboards_hold_persisted_lists es (boot utc t0)) eq_refl).
Defined.

(** X18.  An event writes only the entries of its kind.  The books entry of
    local storage is what it was after every event but an issue, a return,
    a book deletion, a book submit and a page load; the users entry after
    every event but a signup, a user deletion, an account submit and a page
    load; the session after every event but a login, a signup and a logout.
    In particular nothing the student does changes an account, and no change
    to an account changes a book or the session. *)
Theorem events_write_their_entries_only (e : Event) (w : World) :
  (writesBooks e = false -> Db.BOOKS (storage (fire e w)) = Db.BOOKS (storage w))
  /\ (writesUsers e = false -> Db.USERS (storage (fire e w)) = Db.USERS (storage w))
  /\ (writesSession e = false ->
      Db.getSession (storage (fire e w)) = Db.getSession (storage w)).
Proof.
  assert (Hlogin : forall role,
            Db.BOOKS (storage (handleLogin role w)) = Db.BOOKS (storage w)
            /\ Db.USERS (storage (handleLogin role w)) = Db.USERS (storage w)).
  { intros role. unfold handleLogin.
    destruct (Db.findUser _ _) as [user|]; [|split; reflexivity].
    destruct (passwordIs user _); [|split; reflexivity].
    destruct (UserRole_eqb _ _); split; reflexivity. }
  assert (Hsignup : forall fault now,
            Db.BOOKS (storage (handleSignup fault now w)) = Db.BOOKS (storage w)).
  { intros fault now. unfold handleSignup. cbv zeta.
    destruct (_ || _); [reflexivity|].
    destruct (JS.find _ _); [reflexivity|]. destruct fault; reflexivity. }
  assert (Hissue : forall now book,
            let w' := match App.currentUser (app w) with
                      | Some currentUser => handleIssueBook currentUser now book w
                      | None => w
                      end in
            Db.USERS (storage w') = Db.USERS (storage w)
            /\ Db.getSession (storage w') = Db.getSession (storage w)).
  { intros now book. cbv zeta.
    destruct (App.currentUser (app w)); [|split; reflexivity].
    unfold handleIssueBook. destruct (negb _); split; reflexivity. }
  assert (Hbook : forall now,
            Db.USERS (storage (handleBookSubmit now w)) = Db.USERS (storage w)
            /\ Db.getSession (storage (handleBookSubmit now w))
               = Db.getSession (storage w)).
  { intros now. unfold handleBookSubmit. cbv zeta.
    destruct (_ || _); split; reflexivity. }
  assert (Huser : forall now,
            Db.BOOKS (storage (handleUserSubmit now w)) = Db.BOOKS (storage w)
            /\ Db.getSession (storage (handleUserSubmit now w))
               = Db.getSession (storage w)).
  { intros now. unfold handleUserSubmit. cbv zeta.
    destruct (_ || _); [split; reflexivity|].
    destruct (_ && _); split; reflexivity. }
  assert (Hreload : forall zone now,
            Db.getSession (storage (reload zone now w))
            = Db.getSession (storage w)).
  { intros zone now.
    destruct w as [[[us|] [bs|] [ss|]] a ud ad]; reflexivity. }
  destruct e; cbn [fire writesBooks writesUsers writesSession];
    (split; [|split]); intros Hk; try discriminate Hk;
    try apply Hlogin; try apply Hsignup; try apply Hissue; try apply Hbook;
    try apply Huser; try apply Hreload;
    unfold navigate, handleImageUpload, changeBookField,
      handleSmartFillStart, handleSmartFillSettle, openUserModal,
      changeUserField; cbv zeta; split_cases; reflexivity.
Qed.

Lemma events_write_their_entries_only_witness :
  let w := userDashboardMount
             (handleLogin USER
                (setPassword "123" (setLibId "user" (boot utc 1700000000000)))) in
  exists gatsby,
    nth_error (UserDashboard.books (userDash w)) 0 = Some gatsby
    /\ writesUsers (IssueBook 1700000600000 gatsby) = false
    /\ map Book.isIssued
         (Db.getBooks (storage (fire (IssueBook 1700000600000 gatsby) w)))
       = [true; false; true]
    /\ Db.USERS (storage (fire (IssueBook 1700000600000 gatsby) w))
       = Some Db.initialUsers.
Proof.
  intros w. eexists. split; [reflexivity|]. split; [reflexivity|].
  split; [reflexivity|].
  match goal with
  | |- context [fire ?e _] =>
      destruct (events_write_their_entries_only e w) as (_ & Husers & _)
  end.
  now rewrite (Husers eq_refl).
Defined.

(** ** Accounts are complete (App.tsx, components/AdminDashboard.tsx) *)

Lemma truthyStr_of_trim (s : string) :
  JS.truthyStr (JS.trim s) = true -> JS.truthyStr s = true.
Proof. destruct s; [discriminate | reflexivity]. Qed.

Lemma completeUser_spreadOver (u : User.t) (f : UserForm.t) :
  JS.truthy (UserForm.libraryId f) = true ->
  JS.truthy (UserForm.password f) = true ->
  JS.truthy (UserForm.name f) = true ->
  completeUser (UserForm.spreadOver u f) = true.
Proof.
  unfold completeUser, UserForm.spreadOver.
  destruct (UserForm.libraryId f), (UserForm.password f), (UserForm.name f);
    simpl; intros Hl Hp Hn; try discriminate.
  now rewrite Hl, Hp, Hn.
Qed.

Lemma UsersComplete_handleSignup (fault : SignupFault) (now : Z) (w : World) :
  UsersComplete w -> UsersComplete (handleSignup fault now w).
Proof.
  intros [Hs Ha]. unfold handleSignup. cbv zeta.
  destruct (JS.truthyStr (JS.trim (App.name (app w)))) eqn:Hn;
    [|split; assumption].
  destruct (JS.truthyStr (JS.trim (App.libId (app w)))) eqn:Hl;
    [|split; assumption].
  destruct (JS.truthyStr (JS.trim (App.password (app w)))) eqn:Hp;
    [|split; assumption].
  cbn [negb orb]. destruct (JS.find _ _); [split; assumption|].
  destruct fault; [|split; assumption|];
    (split; [|exact Ha]; cbn; apply forallb_snoc; [exact Hs|];
     unfold completeUser; cbn;
     now rewrite (truthyStr_of_trim _ Hn), (truthyStr_of_trim _ Hl),
       (truthyStr_of_trim _ Hp)).
Qed.

Lemma UsersComplete_handleUserSubmit (now : Z) (w : World) :
  UsersComplete w -> UsersComplete (handleUserSubmit now w).
Proof.
  intros [Hs Ha]. unfold handleUserSubmit. cbv zeta.
  destruct (JS.truthy (UserForm.libraryId _)) eqn:Hl; [|split; assumption].
  destruct (JS.truthy (UserForm.password _)) eqn:Hp; [|split; assumption].
  destruct (JS.truthy (UserForm.name _)) eqn:Hn; [|split; assumption].
  cbn [negb orb]. destruct (negb _ && _); [split; assumption|].
  match goal with
  | |- UsersComplete (notify _ _ (closeUserModal (loadData (onStorage (Db.saveUsers ?l) _)))) =>
      assert (Hnew : forallb completeUser l = true)
  end.
  { destruct (_ && _).
    - apply forallb_map_same; [|exact Ha]. intros u Hu.
      destruct (JS.strictEq _ _); [|exact Hu].
      now apply completeUser_spreadOver.
    - apply forallb_snoc; [exact Ha|]. unfold completeUser. cbn.
      destruct (UserForm.libraryId _), (UserForm.name _);
        try discriminate. simpl in Hl, Hn. cbn. now rewrite Hl, Hp, Hn. }
  split; exact Hnew.
Qed.

Lemma UsersComplete_reload (zone : Zone) (now : Z) (w : World) :
  UsersComplete w -> UsersComplete (reload zone now w).
Proof.
  intros [Hs _].
  destruct w as [[[us|] [bs|] [ss|]] a ud ad]; split;
    solve [exact Hs | reflexivity].
Qed.

Lemma UsersComplete_fire (e : Event) (w : World) :
  UsersComplete w -> UsersComplete (fire e w).
Proof.
  intros Hw. destruct e; cbn [fire];
    try (now apply UsersComplete_reload);
    try (now apply UsersComplete_handleSignup);
    try (now apply UsersComplete_handleUserSubmit).
  all: destruct Hw as [Hs Ha].
  all: try (pose proof (forallb_filter_same completeUser
                          (fun u => negb (User.id u =? userId)%string) _ Ha)
              as Hdel).
  all: unfold navigate, handleLogin, handleIssueBook,
         handleImageUpload, changeBookField, handleSmartFillStart,
         handleSmartFillSettle, handleBookSubmit, openUserModal,
         changeUserField;
       cbv zeta; split_cases; split;
       solve [assumption | reflexivity].
Qed.

(** X19.  No incomplete account ever exists: in every world the application
    reaches from the seeded first visit, by any events in any order, every
    persisted user has a library id that is not empty, a password that is
    present and not empty, and a name that is not empty. *)
Theorem accounts_always_complete (zone : Zone) (t0 : Z) (es : list Event) :
  Forall (fun u => User.libraryId u <> ""
                   /\ (exists p, User.password u = Some p /\ p <> "")
                   /\ User.name u <> "")
    (Db.getUsers (storage (run es (boot zone t0)))).
Proof.
  assert (Hinv : UsersComplete (run es (boot zone t0))).
  { assert (H0 : UsersComplete (boot zone t0)) by (split; reflexivity).
    revert H0. generalize (boot zone t0). unfold run.
    induction es as [|e es IH]; simpl; intros w Hw; [exact Hw|].
    apply IH. now apply UsersComplete_fire. }
  destruct Hinv as [Hs _]. apply Forall_forall. intros u Hu.
  rewrite forallb_forall in Hs. specialize (Hs u Hu).
  unfold completeUser in Hs. apply andb_true_iff in Hs as [Hs Hn].
  apply andb_true_iff in Hs as [Hl Hp].
  unfold JS.truthyStr in Hl, Hn. apply negb_true_iff, String.eqb_neq in Hl, Hn.
  split; [exact Hl|]. split; [|exact Hn].
  unfold JS.truthy in Hp. destruct (User.password u) as [p|]; [|discriminate].
  exists p. split; [reflexivity|].
  unfold JS.truthyStr in Hp. now apply negb_true_iff, String.eqb_neq in Hp.
Qed.
